(** * Chommie Chat: the presence registry and the message router

    A shallow embedding of [src/Chommie Chat/main.py]: the five Socket.IO
    handlers ([connect], [disconnect], [onJoin], [onLeave], [handleMessage]),
    the global [activeUsers] dictionary they share, and the part of the
    Flask-SocketIO transport they call ([join_room], [leave_room], [emit]).

    Conventions of the embedding.
    - A Python [str] is a [string]; each character stands for one code point
      below 256.
    - [activeUsers] is an insertion-ordered dictionary: an association list
      whose order is the order in which keys were first inserted.
    - The value stored for a connection is a dictionary with the keys
      ['username'], ['connectedAt'] and, optionally, ['room']; it is the
      record [UserData], the absent key being [None].
    - [datetime.now().isoformat()] and [generateGuestUsername()] read the
      clock and the random generator; their results are arguments of the
      handlers.
    - Every handler is wrapped in [try: ... except Exception: log]; the
      monad [M] keeps the state reached and the events sent when a handler
      stops early, by [return] or by an exception.
    - Calls of [logger] are not part of the model. *)

From Stdlib Require Import Ascii.
From stdpp Require Import gmap strings list fin_maps pretty.

Local Open Scope string_scope.

(** ** Python strings: [str.strip] *)

Module PyStr.

(** [str.isspace] on the code points below 256: TAB..CR, FS..US, SPACE,
    NEL and NBSP. *)
Definition is_space (c : ascii) : bool :=
  let n := nat_of_ascii c in
  (((9 <=? n) && (n <=? 13)) || ((28 <=? n) && (n <=? 32))
   || (n =? 133) || (n =? 160))%nat.

Fixpoint lstrip (s : string) : string :=
  match s with
  | EmptyString => EmptyString
  | String c s' => if is_space c then lstrip s' else s
  end.

Fixpoint rev (s : string) : string :=
  match s with
  | EmptyString => EmptyString
  | String c s' => rev s' +:+ String c EmptyString
  end.

Definition rstrip (s : string) : string := rev (lstrip (rev s)).

(** [s.strip()] *)
Definition strip (s : string) : string := rstrip (lstrip s).

Fixpoint all_space (s : string) : bool :=
  match s with
  | EmptyString => true
  | String c s' => is_space c && all_space s'
  end.

End PyStr.

(** ** Python dictionaries, in insertion order *)

Module PyDict.
Section dict.
Context {V : Type}.

(** [d.get(k)] / [d[k]] *)
Fixpoint get (k : string) (d : list (string * V)) : option V :=
  match d with
  | [] => None
  | (k', v) :: d' => if decide (k' = k) then Some v else get k d'
  end.

(** [k in d] *)
Definition contains (k : string) (d : list (string * V)) : bool :=
  match get k d with Some _ => true | None => false end.

(** [d[k] = v]: an existing key keeps its place, a new key goes last. *)
Fixpoint set (k : string) (v : V) (d : list (string * V))
  : list (string * V) :=
  match d with
  | [] => [(k, v)]
  | (k', v') :: d' =>
      if decide (k' = k) then (k, v) :: d' else (k', v') :: set k v d'
  end.

(** [del d[k]]; the keys of a dictionary are distinct, so this removes the
    entry of [k]. *)
Definition del (k : string) (d : list (string * V)) : list (string * V) :=
  filter (λ kv, kv.1 ≠ k) d.

Definition keys (d : list (string * V)) : list string := d.*1.
Definition values (d : list (string * V)) : list V := d.*2.
End dict.
End PyDict.

(** ** The data of the program *)

(** [Config.CHAT_ROOMS] *)
Definition CHAT_ROOMS : list string :=
  ["General"; "Academics"; "Running Club"; "Anime Club"].

(** One value of [activeUsers]. *)
Record UserData := mkUser {
  username : string;
  connectedAt : string;
  room : option string
}.

(** The payloads of the four outbound events. *)
Inductive Payload :=
| Users (users : list string)
| Status (msg type timestamp : string)
| RoomMsg (msg user room timestamp : string)
| PrivateMsg (msg from to timestamp : string).

(** Where an [emit] goes: [broadcast=True] or [room=...]. *)
Inductive Target :=
| Broadcast
| ToRoom (name : string).

(** ** The transport: Flask-SocketIO rooms

    The library keeps, per room name, the set of connections in it.  Every
    connection is put in the room [None] (all clients) and in a room named
    by its own sid when it connects; [join_room] and [leave_room] add it to
    and remove it from a named room; it is removed from every room when it
    disconnects.  [emit(..., room=r)] reaches the members of [r] at the
    time of the call, [emit(..., broadcast=True)] the members of [None].
    All names share one name space.  The library takes a room that is
    false in Python for no room at all: [emit(..., room='')] goes to the
    members of [None], that is to every client. *)

Module SocketIO.

Definition members (rooms : gmap (option string) (gset string))
    (r : option string) : gset string :=
  default ∅ (rooms !! r).

Definition enter (sid : string) (r : option string)
    (rooms : gmap (option string) (gset string))
  : gmap (option string) (gset string) :=
  <[r := {[sid]} ∪ members rooms r]> rooms.

Definition leave (sid : string) (r : option string)
    (rooms : gmap (option string) (gset string))
  : gmap (option string) (gset string) :=
  alter (λ m, m ∖ {[sid]}) r rooms.

Definition open (sid : string)
    (rooms : gmap (option string) (gset string))
  : gmap (option string) (gset string) :=
  enter sid (Some sid) (enter sid None rooms).

Definition close (sid : string)
    (rooms : gmap (option string) (gset string))
  : gmap (option string) (gset string) :=
  (λ m, m ∖ {[sid]}) <$> rooms.

Definition deliver (rooms : gmap (option string) (gset string))
    (to : Target) : gset string :=
  match to with
  | Broadcast => members rooms None
  | ToRoom r =>
      if decide (r = EmptyString) then members rooms None
      else members rooms (Some r)
  end.

End SocketIO.

(** One event handed to the transport, with the connections that get it. *)
Record Emit := mkEmit {
  event : string;
  data : Payload;
  to : Target;
  rcpt : gset string
}.

(** The state the handlers share: the global [activeUsers], the
    ['username'] entry of each connection's [session], and the rooms of the
    transport. *)
Record State := mkState {
  activeUsers : list (string * UserData);
  session : gmap string string;
  sio : gmap (option string) (gset string)
}.

Definition init : State := mkState [] ∅ ∅.

(** ** The handler monad *)

Inductive Exit :=
| Returned
| Raised (exn : string).

Definition M (A : Type) : Type := State → State * list Emit * (A + Exit).

#[global] Instance M_ret : MRet M := λ A a s, (s, [], inl a).

#[global] Instance M_bind : MBind M := λ A B f m s,
  match m s with
  | (s1, out1, inl a) =>
      match f a s1 with
      | (s2, out2, r) => (s2, (out1 ++ out2)%list, r)
      end
  | (s1, out1, inr x) => (s1, out1, inr x)
  end.

Definition raise {A} (exn : string) : M A := λ s, (s, [], inr (Raised exn)).
Definition return_ {A} : M A := λ s, (s, [], inr Returned).
Definition when (b : bool) (m : M unit) : M unit := if b then m else mret tt.
Definition gets {A} (f : State → A) : M A := λ s, (s, [], inl (f s)).
Definition modify (f : State → State) : M unit := λ s, (f s, [], inl tt).

(** [x = o[...]] with a [KeyError] when the key is missing. *)
Definition item {A} (o : option A) : M A :=
  match o with Some a => mret a | None => raise "KeyError" end.

(** [emit(event, data, room=... | broadcast=True)] *)
Definition emit (ev : string) (d : Payload) (t : Target) : M unit := λ s,
  (s, [mkEmit ev d t (SocketIO.deliver (sio s) t)], inl tt).

(** [join_room(room)] and [leave_room(room)] for the calling connection. *)
Definition join_room (sid r : string) : M unit :=
  modify (λ s, mkState (activeUsers s) (session s)
                       (SocketIO.enter sid (Some r) (sio s))).
Definition leave_room (sid r : string) : M unit :=
  modify (λ s, mkState (activeUsers s) (session s)
                       (SocketIO.leave sid (Some r) (sio s))).

Definition set_activeUsers (f : list (string * UserData) →
                                list (string * UserData)) : M unit :=
  modify (λ s, mkState (f (activeUsers s)) (session s) (sio s)).

(** [for k, v in items: body(k, v)] *)
Fixpoint for_items (items : list (string * UserData))
    (body : string → UserData → M unit) : M unit :=
  match items with
  | [] => mret tt
  | (k, v) :: rest => body k v ;; for_items rest body
  end.

(** [[user['username'] for user in activeUsers.values()]] *)
Definition snapshot (au : list (string * UserData)) : list string :=
  username <$> PyDict.values au.

(** ** The handlers *)

(** The dictionary a client sends with a [join], [leave] or [message]
    event; an absent key is [None].  The values are strings: a key whose
    value is JSON null or not a string is not part of the model. *)
Record Data := mkData {
  d_room : option string;
  d_type : option string;
  d_msg : option string;
  d_target : option string
}.

(** [session['username']] of the calling connection. *)
Definition session_username (sid : string) : M string :=
  u ← gets (λ s, session s !! sid); item u.

(** Python truth of an optional string: [None] and [''] are false. *)
Definition truthy (o : option string) : bool :=
  match o with
  | None => false
  | Some v => negb (bool_decide (v = ""))
  end.

(** [activeUsers[request.sid]['room'] = room] *)
Definition set_room (sid r : string) : M unit :=
  au ← gets activeUsers;
  u ← item (PyDict.get sid au);
  set_activeUsers
    (PyDict.set sid (mkUser (username u) (connectedAt u) (Some r))).

(** [activeUsers[request.sid].pop('room', None)] *)
Definition pop_room (sid : string) : M unit :=
  au ← gets activeUsers;
  u ← item (PyDict.get sid au);
  set_activeUsers (PyDict.set sid (mkUser (username u) (connectedAt u) None)).

Definition connect (sid guest now : string) : M unit :=
  has ← gets (λ s, session s !! sid);
  when (negb (bool_decide (is_Some has)))
    (modify (λ s, mkState (activeUsers s) (<[sid := guest]> (session s))
                          (sio s)));;
  name ← session_username sid;
  set_activeUsers (PyDict.set sid (mkUser name now None));;
  users ← gets (λ s, snapshot (activeUsers s));
  emit "activeUsers" (Users users) Broadcast.

Definition disconnect (sid : string) : M unit :=
  present ← gets (λ s, PyDict.contains sid (activeUsers s));
  when present
    (set_activeUsers (PyDict.del sid);;
     users ← gets (λ s, snapshot (activeUsers s));
     emit "activeUsers" (Users users) Broadcast).

Definition onJoin (sid : string) (d : Data) (now : string) : M unit :=
  name ← session_username sid;
  r ← item (d_room d);
  when (negb (bool_decide (r ∈ CHAT_ROOMS))) return_;;
  join_room sid r;;
  set_room sid r;;
  emit "status" (Status (name +:+ " has joined the room.") "join" now)
       (ToRoom r).

Definition onLeave (sid : string) (d : Data) (now : string) : M unit :=
  name ← session_username sid;
  r ← item (d_room d);
  leave_room sid r;;
  present ← gets (λ s, PyDict.contains sid (activeUsers s));
  when present (pop_room sid);;
  emit "status" (Status (name +:+ " has left the room.") "leave" now)
       (ToRoom r).

Definition handleMessage (sid : string) (d : Data) (now : string) : M unit :=
  name ← session_username sid;
  let r := default "General" (d_room d) in
  let msgType := default "message" (d_type d) in
  let message := PyStr.strip (default "" (d_msg d)) in
  when (bool_decide (message = "")) return_;;
  let timestamp := now in
  if bool_decide (msgType = "private") then
    let targetUser := d_target d in
    when (negb (truthy targetUser)) return_;;
    items ← gets activeUsers;
    for_items items (λ sid' userData,
      when (bool_decide (Some (username userData) = targetUser))
        (emit "privateMessage"
              (PrivateMsg message name (default "" targetUser) timestamp)
              (ToRoom sid');;
         return_))
  else
    when (negb (bool_decide (r ∈ CHAT_ROOMS))) return_;;
    emit "message" (RoomMsg message name r timestamp) (ToRoom r).

(** ** The events of the transport and one step of the server *)

Inductive Event :=
| Connect (sid : string) (http_user : option string) (guest now : string)
| Disconnect (sid : string)
| Join (sid : string) (d : Data) (now : string)
| Leave (sid : string) (d : Data) (now : string)
| Message (sid : string) (d : Data) (now : string).

(** [try: ... except Exception as e: logger.error(...)] *)
Definition handler (m : M unit) (s : State) : State * list Emit :=
  match m s with (s', out, _) => (s', out) end.

(** A new connection: its [session] is a copy of the HTTP session, which
    holds a ['username'] when the client has loaded the page before, and it
    enters the room of all clients and its own room. *)
Definition transport_open (sid : string) (http_user : option string)
    (s : State) : State :=
  mkState (activeUsers s)
          (match http_user with
           | Some u => <[sid := u]> (session s)
           | None => delete sid (session s)
           end)
          (SocketIO.open sid (sio s)).

(** The end of a connection: its session is dropped and it leaves every
    room. *)
Definition transport_close (sid : string) (s : State) : State :=
  mkState (activeUsers s) (delete sid (session s))
          (SocketIO.close sid (sio s)).

(** Does [connect] end without [return False]? *)
Definition accepted (sid : string) (http_user : option string)
    (guest now : string) (s : State) : bool :=
  match connect sid guest now (transport_open sid http_user s) with
  | (_, _, inr (Raised _)) => false
  | _ => true
  end.

Definition step (s : State) (e : Event) : State * list Emit :=
  match e with
  | Connect sid http_user guest now =>
      let '(s', out) :=
        handler (connect sid guest now) (transport_open sid http_user s) in
      if accepted sid http_user guest now s then (s', out)
      else (transport_close sid s', out)
  | Disconnect sid =>
      let '(s', out) := handler (disconnect sid) s in
      (transport_close sid s', out)
  | Join sid d now => handler (onJoin sid d now) s
  | Leave sid d now => handler (onLeave sid d now) s
  | Message sid d now => handler (handleMessage sid d now) s
  end.

(** The server run on a list of events: the final state and everything
    sent, in order. *)
Fixpoint run (s : State) (evs : list Event) : State * list Emit :=
  match evs with
  | [] => (s, [])
  | e :: evs' =>
      let '(s1, out1) := step s e in
      let '(s2, out2) := run s1 evs' in
      (s2, (out1 ++ out2)%list)
  end.

(** ** Notions used to state the properties *)

(** The room recorded for a connection, when there is one, is one of
    [CHAT_ROOMS]. *)
Definition rooms_valid (s : State) : Prop :=
  Forall (λ kv, ∀ r, room kv.2 = Some r → r ∈ CHAT_ROOMS) (activeUsers s).

(** The keys of [activeUsers] are distinct, and a connection whose recorded
    room is [r] is in the room [r] of the transport. *)
Definition consistent (s : State) : Prop :=
  NoDup (PyDict.keys (activeUsers s)) ∧
  ∀ k u r, (k, u) ∈ activeUsers s → room u = Some r →
           k ∈ SocketIO.members (sio s) (Some r).

(** Every connection in [activeUsers] has a ['username'] in its session. *)
Definition sessions_known (s : State) : Prop :=
  ∀ k, k ∈ PyDict.keys (activeUsers s) → is_Some (session s !! k).

(** The members of a room as the specification derives them from the
    registry: the connections whose recorded room is [r]. *)
Definition membersOf (r : string) (au : list (string * UserData))
  : gset string :=
  list_to_set (filter (λ kv, room kv.2 = Some r) au).*1.






(** The dictionary [{'room': r}] of a [join] or [leave] event. *)
Definition join_data (r : string) : Data := mkData (Some r) None None None.

(** A state with two connections: [a] has joined General and then
    Academics, [b] has joined General. *)
Definition lobby : State :=
  (run init [Connect "a" None "Guest10301234" "10:30:00";
             Connect "b" None "Guest10315678" "10:31:00";
             Join "a" (join_data "General") "10:32:00";
             Join "a" (join_data "Academics") "10:33:00";
             Join "b" (join_data "General") "10:34:00"]).1.

(** ** The guest name *)

(** One decimal digit. *)
Definition digit (n : nat) : ascii := ascii_of_nat (48 + n `mod` 10).

(** [%H] and [%M] of [strftime]: two digits, zero padded. *)
Definition two_digits (n : nat) : string :=
  String (digit (n `div` 10)) (String (digit n) EmptyString).

(** [generateGuestUsername()], from the hour and the minute of the clock and
    the number drawn by [random.randint(1000, 9999)]. *)
Definition generateGuestUsername (hour minute : nat) (rnd : Z) : string :=
  let timestamp := two_digits hour +:+ two_digits minute in
  "Guest" +:+ timestamp +:+ pretty rnd.

(** ** More notions used to state the properties *)

(** The ['msg'] and the sender of a chat payload. *)
Definition payload_text (p : Payload) : option string :=
  match p with
  | RoomMsg m _ _ _ | PrivateMsg m _ _ _ => Some m
  | _ => None
  end.

Definition payload_sender (p : Payload) : option string :=
  match p with
  | RoomMsg _ u _ _ | PrivateMsg _ u _ _ => Some u
  | _ => None
  end.

Definition first_char (s : string) : option ascii :=
  match s with
  | EmptyString => None
  | String c _ => Some c
  end.

Fixpoint last_char (s : string) : option ascii :=
  match s with
  | EmptyString => None
  | String c EmptyString => Some c
  | String _ s' => last_char s'
  end.

(** The display name of every entry is the ['username'] of the session of
    its connection. *)
Definition names_match (s : State) : Prop :=
  ∀ k u, (k, u) ∈ activeUsers s → session s !! k = Some (username u).

(** A connection is only in rooms of [CHAT_ROOMS] and in the room named by
    its own sid. *)
Definition rooms_scoped (s : State) : Prop :=
  ∀ k r, k ∈ SocketIO.members (sio s) (Some r) → r ∈ CHAT_ROOMS ∨ r = k.


(** The characters [0] to [9], and the strings made of them. *)
Definition is_digit (c : ascii) : bool :=
  let n := nat_of_ascii c in ((48 <=? n) && (n <=? 57))%nat.

Fixpoint all_digits (s : string) : bool :=
  match s with
  | EmptyString => true
  | String c s' => is_digit c && all_digits s'
  end.

(** The kind of event each inbound event may send. *)
Definition sends (e : Event) (em : Emit) : Prop :=
  match e with
  | Connect _ _ _ _ | Disconnect _ =>
      event em = "activeUsers" ∧ to em = Broadcast
  | Join _ d _ | Leave _ d _ =>
      event em = "status" ∧ ∃ r, d_room d = Some r ∧ to em = ToRoom r
  | Message _ d _ =>
      (event em = "message" ∧ to em = ToRoom (default "General" (d_room d))) ∨
      (event em = "privateMessage" ∧ ∃ k, to em = ToRoom k)
  end.

(** * Properties of the model *)

(** ** [str.strip] *)

Lemma lstrip_all_space s : PyStr.all_space s = true → PyStr.lstrip s = "".
Proof.
  induction s as [|c s IH]; simpl; [done|].
  intros [Hc Hs]%andb_prop. rewrite Hc. auto.
Qed.

Lemma strip_all_space s : PyStr.all_space s = true → PyStr.strip s = "".
Proof.
  intros H. unfold PyStr.strip, PyStr.rstrip.
  by rewrite (lstrip_all_space s H).
Qed.

(** ** Dictionaries *)

Section dict_facts.
Context {V : Type}.
Implicit Types (d : list (string * V)) (k : string) (v : V).

Lemma get_None_keys k d : PyDict.get k d = None ↔ k ∉ PyDict.keys d.
Proof.
  unfold PyDict.keys. induction d as [|[k' v'] d IH]; simpl.
  - split; [intros _; apply not_elem_of_nil | done].
  - rewrite not_elem_of_cons. destruct (decide (k' = k)) as [->|Hne].
    + split; [done | intros []; done].
    + rewrite IH. split; [intros ?; split; [congruence|done] | intros []; done].
Qed.

Lemma get_Some_elem k v d : PyDict.get k d = Some v → (k, v) ∈ d.
Proof.
  induction d as [|[k' v'] d IH]; simpl; [done|].
  destruct (decide (k' = k)) as [->|Hne].
  - intros [= ->]. left.
  - intros H. right. auto.
Qed.

Lemma elem_get k v d : NoDup (PyDict.keys d) → (k, v) ∈ d → PyDict.get k d = Some v.
Proof.
  unfold PyDict.keys. induction d as [|[k' v'] d IH]; simpl.
  - intros _ H. by apply elem_of_nil in H.
  - intros [Hk' Hnd]%NoDup_cons [[= -> ->]|Hin]%elem_of_cons.
    + by rewrite decide_True.
    + destruct (decide (k' = k)) as [->|Hne]; [|auto].
      exfalso. apply Hk'. apply list_elem_of_fmap. by exists (k, v).
Qed.

Lemma contains_true k d : PyDict.contains k d = true ↔ k ∈ PyDict.keys d.
Proof.
  unfold PyDict.contains. destruct (PyDict.get k d) eqn:E.
  - split; [intros _|done]. destruct (decide (k ∈ PyDict.keys d)); [done|].
    apply get_None_keys in n. congruence.
  - split; [done|]. intros Hin. apply get_None_keys in E. done.
Qed.

Lemma contains_false k d : PyDict.contains k d = false ↔ PyDict.get k d = None.
Proof. unfold PyDict.contains. destruct (PyDict.get k d); split; done. Qed.

Lemma get_set_eq k v d : PyDict.get k (PyDict.set k v d) = Some v.
Proof.
  induction d as [|[k' v'] d IH]; simpl.
  - by rewrite decide_True.
  - destruct (decide (k' = k)) as [->|Hne]; simpl.
    + by rewrite decide_True.
    + by rewrite decide_False.
Qed.

Lemma get_set_ne k k' v d :
  k ≠ k' → PyDict.get k' (PyDict.set k v d) = PyDict.get k' d.
Proof.
  intros Hne. induction d as [|[k0 v0] d IH]; simpl.
  - by rewrite decide_False.
  - destruct (decide (k0 = k)) as [->|Hne0]; simpl.
    + by rewrite !decide_False.
    + by rewrite IH.
Qed.

Lemma keys_set_present k v d :
  k ∈ PyDict.keys d → PyDict.keys (PyDict.set k v d) = PyDict.keys d.
Proof.
  unfold PyDict.keys. induction d as [|[k' v'] d IH]; simpl.
  - intros H. by apply elem_of_nil in H.
  - intros Hin. destruct (decide (k' = k)) as [->|Hne]; simpl; [done|].
    f_equal. apply IH. apply elem_of_cons in Hin as [?|?]; [congruence|done].
Qed.

Lemma keys_set_absent k v d :
  k ∉ PyDict.keys d → PyDict.keys (PyDict.set k v d) = (PyDict.keys d ++ [k])%list.
Proof.
  unfold PyDict.keys. induction d as [|[k' v'] d IH]; simpl; [done|].
  intros [Hne Hnin]%not_elem_of_cons.
  rewrite decide_False by done. simpl. f_equal. auto.
Qed.

Lemma elem_set k v k' v' d :
  (k', v') ∈ PyDict.set k v d → (k', v') = (k, v) ∨ (k', v') ∈ d.
Proof.
  induction d as [|[k0 v0] d IH]; simpl.
  - intros ->%list_elem_of_singleton. by left.
  - destruct (decide (k0 = k)) as [->|Hne].
    + intros [->|Hin]%elem_of_cons; [by left|]. right. by right.
    + intros [->|Hin]%elem_of_cons; [right; by left|].
      destruct (IH Hin) as [?|?]; [by left|]. right. by right.
Qed.

Lemma elem_set_nodup k v k' v' d :
  NoDup (PyDict.keys d) → (k', v') ∈ PyDict.set k v d →
  (k' = k ∧ v' = v) ∨ (k' ≠ k ∧ (k', v') ∈ d).
Proof.
  unfold PyDict.keys. induction d as [|[k0 v0] d IH]; simpl.
  - intros _ [= -> ->]%list_elem_of_singleton. by left.
  - intros [Hk0 Hnd]%NoDup_cons. destruct (decide (k0 = k)) as [->|Hne].
    + intros [[= -> ->]|Hin]%elem_of_cons; [by left|]. right. split.
      * intros ->. apply Hk0. apply list_elem_of_fmap. by exists (k, v').
      * by right.
    + intros [[= -> ->]|Hin]%elem_of_cons.
      * right. split; [done|by left].
      * destruct (IH Hnd Hin) as [?|[? ?]]; [by left|].
        right. split; [done|by right].
Qed.

Lemma elem_del k k' v' d :
  (k', v') ∈ PyDict.del k d ↔ k' ≠ k ∧ (k', v') ∈ d.
Proof. unfold PyDict.del. by rewrite list_elem_of_filter. Qed.

Lemma get_del_eq k d : PyDict.get k (PyDict.del k d) = None.
Proof.
  apply get_None_keys. unfold PyDict.keys.
  intros ([k' v'] & -> & [Hne _]%elem_del)%list_elem_of_fmap. done.
Qed.

Lemma del_absent k d : PyDict.get k d = None → PyDict.del k d = d.
Proof.
  induction d as [|[k' v'] d IH]; simpl; [done|].
  destruct (decide (k' = k)) as [->|Hne]; [done|].
  intros H. unfold PyDict.del in *. rewrite filter_cons_True by done.
  by rewrite IH.
Qed.

Lemma NoDup_keys_set k v d :
  NoDup (PyDict.keys d) → NoDup (PyDict.keys (PyDict.set k v d)).
Proof.
  intros Hnd. destruct (decide (k ∈ PyDict.keys d)) as [Hin|Hnin].
  - by rewrite keys_set_present.
  - rewrite keys_set_absent by done. apply NoDup_app. split; [done|].
    split; [|apply NoDup_singleton].
    intros x Hx ->%list_elem_of_singleton. done.
Qed.

Lemma NoDup_keys_del k d :
  NoDup (PyDict.keys d) → NoDup (PyDict.keys (PyDict.del k d)).
Proof.
  unfold PyDict.keys, PyDict.del. induction d as [|[k' v'] d IH]; simpl.
  - done.
  - intros [Hk' Hnd]%NoDup_cons. destruct (decide (k' ≠ k)) as [Hne|Heq].
    + rewrite filter_cons_True by done. simpl. apply NoDup_cons. split; [|auto].
      intros ([k2 v2] & Hk2 & [_ Hin]%list_elem_of_filter)%list_elem_of_fmap.
      simpl in Hk2. subst k2. apply Hk'. apply list_elem_of_fmap. by exists (k', v2).
    + rewrite filter_cons_False by done. auto.
Qed.


End dict_facts.

(** ** The handlers, case by case *)

Ltac unfold_m :=
  unfold session_username, set_room, pop_room, set_activeUsers, join_room,
    leave_room, emit, item, gets, modify, raise, return_, when,
    mbind, M_bind, mret, M_ret in *.

Lemma state_eta s : mkState (activeUsers s) (session s) (sio s) = s.
Proof. by destruct s. Qed.

Lemma CHAT_ROOMS_nonempty r : r ∈ CHAT_ROOMS → r ≠ "".
Proof.
  intros H ->. revert H. by apply (bool_decide_unpack _).
Qed.

Lemma deliver_room rooms r :
  r ≠ "" → SocketIO.deliver rooms (ToRoom r) = SocketIO.members rooms (Some r).
Proof. intros H. unfold SocketIO.deliver. by rewrite decide_False. Qed.

Lemma deliver_no_room rooms :
  SocketIO.deliver rooms (ToRoom "") = SocketIO.members rooms None.
Proof. done. Qed.

Section private_loop.
Variables (b : UserData → bool) (ev : string) (pl : Payload).

#[local] Abbreviation body :=
  (λ (k : string) (u : UserData),
     when (b u) (emit ev pl (ToRoom k);; return_)).

Lemma for_items_no_match items s :
  Forall (λ kv, b kv.2 = false) items →
  for_items items body s = (s, [], inl tt).
Proof.
  induction 1 as [|[k u] items Hb _ IH]; simpl; [done|].
  simpl in Hb. unfold_m. rewrite Hb. by rewrite IH.
Qed.

Lemma for_items_first_match pre k u post s :
  Forall (λ kv, b kv.2 = false) pre → b u = true →
  for_items (pre ++ (k, u) :: post) body s =
  (s, [mkEmit ev pl (ToRoom k) (SocketIO.deliver (sio s) (ToRoom k))],
   inr Returned).
Proof.
  intros Hpre Hu.
  induction Hpre as [|[k0 u0] pre Hb _ IH]; simpl.
  - unfold_m. by rewrite Hu.
  - simpl in Hb. unfold_m. rewrite Hb. by rewrite IH.
Qed.

Lemma first_match_split (items : list (string * UserData)) :
  Exists (λ kv, b kv.2 = true) items →
  ∃ pre k u post, items = (pre ++ (k, u) :: post)%list ∧
    Forall (λ kv, b kv.2 = false) pre ∧ b u = true.
Proof.
  induction items as [|[k0 u0] items IH]; [by intros ?%Exists_nil|].
  intros Hex. destruct (b u0) eqn:Hb.
  - by exists [], k0, u0, items.
  - apply Exists_cons in Hex as [Hex|Hex]; [simpl in Hex; congruence|].
    destruct (IH Hex) as (pre & k & u & post & -> & Hpre & Hu).
    exists ((k0, u0) :: pre), k, u, post. split; [done|].
    split; [by constructor|done].
Qed.

Lemma for_items_cases items s :
  for_items items body s = (s, [], inl tt) ∨
  ∃ k, for_items items body s =
       (s, [mkEmit ev pl (ToRoom k) (SocketIO.deliver (sio s) (ToRoom k))],
        inr Returned).
Proof.
  destruct (decide (Exists (λ kv, b kv.2 = true) items)) as [Hex|Hnex].
  - destruct (first_match_split items Hex) as (pre & k & u & post & -> & ? & ?).
    right. exists k. by apply for_items_first_match.
  - left. apply for_items_no_match. apply Forall_forall. intros kv Hkv.
    destruct (b kv.2) eqn:E; [|done]. exfalso. apply Hnex.
    apply Exists_exists. by exists kv.
Qed.
End private_loop.

Lemma type_not_private d :
  d_type d ≠ Some "private" →
  bool_decide (default "message" (d_type d) = "private") = false.
Proof.
  intros H. apply bool_decide_eq_false. destruct (d_type d); simpl; congruence.
Qed.

Lemma handleMessage_no_session sid d now s :
  session s !! sid = None →
  handleMessage sid d now s = (s, [], inr (Raised "KeyError")).
Proof. intros H. unfold handleMessage. unfold_m. by rewrite H. Qed.

Lemma handleMessage_blank sid d now s :
  PyStr.strip (default "" (d_msg d)) = "" →
  handler (handleMessage sid d now) s = (s, []).
Proof.
  intros H. unfold handler, handleMessage. unfold_m.
  destruct (session s !! sid); [|done]. by rewrite H.
Qed.

Lemma handleMessage_room sid d now s name :
  session s !! sid = Some name →
  d_type d ≠ Some "private" →
  PyStr.strip (default "" (d_msg d)) ≠ "" →
  handleMessage sid d now s =
  let r := default "General" (d_room d) in
  if bool_decide (r ∈ CHAT_ROOMS)
  then (s, [mkEmit "message"
              (RoomMsg (PyStr.strip (default "" (d_msg d))) name r now)
              (ToRoom r) (SocketIO.members (sio s) (Some r))], inl tt)
  else (s, [], inr Returned).
Proof.
  intros Hs Ht Hm. unfold handleMessage. unfold_m. rewrite Hs.
  rewrite bool_decide_eq_false_2 by done. simpl.
  rewrite (type_not_private d Ht).
  destruct (bool_decide (default "General" (d_room d) ∈ CHAT_ROOMS)) eqn:Hr;
    [|done].
  apply bool_decide_eq_true, CHAT_ROOMS_nonempty in Hr.
  simpl. by destruct (decide (default "General" (d_room d) = "")).
Qed.

Lemma handleMessage_private sid d now s name :
  session s !! sid = Some name →
  d_type d = Some "private" →
  PyStr.strip (default "" (d_msg d)) ≠ "" →
  handleMessage sid d now s =
  if truthy (d_target d)
  then for_items (activeUsers s) (λ sid' userData,
         when (bool_decide (Some (username userData) = d_target d))
           (emit "privateMessage"
              (PrivateMsg (PyStr.strip (default "" (d_msg d))) name
                          (default "" (d_target d)) now)
              (ToRoom sid');;
            return_)) s
  else (s, [], inr Returned).
Proof.
  intros Hs Ht Hm. unfold handleMessage. unfold_m. rewrite Hs.
  rewrite bool_decide_eq_false_2 by done. simpl. rewrite Ht. simpl.
  destruct (truthy (d_target d)); simpl; [|done].
  match goal with |- context [for_items ?i ?f s] =>
    destruct (for_items i f s) as [[s' out] r] end.
  done.
Qed.

Lemma handleMessage_state sid d now s :
  (handler (handleMessage sid d now) s).1 = s.
Proof.
  destruct (session s !! sid) as [name|] eqn:Hs;
    [|unfold handler; by rewrite handleMessage_no_session].
  destruct (decide (PyStr.strip (default "" (d_msg d)) = "")) as [Hm|Hm];
    [by rewrite handleMessage_blank|].
  unfold handler. destruct (decide (d_type d = Some "private")) as [Ht|Ht].
  - rewrite (handleMessage_private _ _ _ _ name) by done.
    destruct (truthy (d_target d)); [|done].
    match goal with |- context [for_items ?i (λ k u, when (@?b u) (emit ?ev ?pl _;; _)) s] =>
      destruct (for_items_cases b ev pl i s) as [->|[k ->]] end; done.
  - rewrite (handleMessage_room _ _ _ _ name) by done. simpl.
    by destruct (bool_decide _).
Qed.

Lemma handleMessage_private_events sid d now s :
  d_type d = Some "private" →
  Forall (λ e, event e = "privateMessage")
         (handler (handleMessage sid d now) s).2.
Proof.
  intros Ht.
  destruct (session s !! sid) as [name|] eqn:Hs;
    [|unfold handler; by rewrite handleMessage_no_session].
  destruct (decide (PyStr.strip (default "" (d_msg d)) = "")) as [Hm|Hm];
    [by rewrite handleMessage_blank|].
  unfold handler. rewrite (handleMessage_private _ _ _ _ name) by done.
  destruct (truthy (d_target d)); [|done].
  match goal with |- context [for_items ?i (λ k u, when (@?b u) (emit ?ev ?pl _;; _)) s] =>
    destruct (for_items_cases b ev pl i s) as [->|[k ->]] end; simpl.
  - done.
  - by repeat constructor.
Qed.

Lemma onJoin_invalid_room sid d now s r :
  d_room d = Some r → r ∉ CHAT_ROOMS →
  handler (onJoin sid d now) s = (s, []).
Proof.
  intros Hr Hnin. unfold handler, onJoin. unfold_m.
  destruct (session s !! sid); [|done]. rewrite Hr.
  by rewrite bool_decide_eq_false_2.
Qed.

(** ** C9: blank messages *)

(** C9. A Message whose text is empty or made of white space only sends no
    event and leaves the whole state, the registry included, as it was,
    whatever its kind (room or private), room and target are. *)
Theorem empty_message_rejected s sid d now :
  PyStr.all_space (default "" (d_msg d)) = true →
  step s (Message sid d now) = (s, []).
Proof.
  intros H. simpl. apply handleMessage_blank. by apply strip_all_space.
Qed.

Lemma empty_message_rejected_witness :
  let d := mkData (Some "General") (Some "private")
                  (Some (String "009"%char "   "))
                  (Some "Guest10315678") in
  PyStr.all_space (default "" (d_msg d)) = true ∧
  step lobby (Message "a" d "10:35:00") = (lobby, []).
Proof.
  split; [reflexivity|]. apply (empty_message_rejected lobby "a"). reflexivity.
Defined.

(** ** C8: rooms outside the directory *)

(** C8. A Join naming a room that is not in [CHAT_ROOMS] sends nothing and
    changes nothing; a Message naming such a room changes nothing and sends
    neither a [status] nor a [message] event. *)
Theorem invalid_room_rejected s sid d now r :
  d_room d = Some r → r ∉ CHAT_ROOMS →
  step s (Join sid d now) = (s, []) ∧
  (step s (Message sid d now)).1 = s ∧
  Forall (λ e, event e ≠ "status" ∧ event e ≠ "message")
         (step s (Message sid d now)).2.
Proof.
  intros Hr Hnin. split; [by apply (onJoin_invalid_room _ _ _ _ r)|].
  split; [apply handleMessage_state|]. simpl.
  destruct (decide (d_type d = Some "private")) as [Ht|Ht].
  - eapply Forall_impl; [by apply handleMessage_private_events|].
    intros e ->. done.
  - destruct (session s !! sid) as [name|] eqn:Hs;
      [|unfold handler; by rewrite handleMessage_no_session].
    destruct (decide (PyStr.strip (default "" (d_msg d)) = "")) as [Hm|Hm];
      [by rewrite handleMessage_blank|].
    unfold handler. rewrite (handleMessage_room _ _ _ _ name) by done.
    simpl. rewrite Hr. simpl. by rewrite bool_decide_eq_false_2.
Qed.

Lemma invalid_room_rejected_witness :
  let d := mkData (Some "Chess Club") None (Some "hello") None in
  d_room d = Some "Chess Club" ∧ ("Chess Club" ∉ CHAT_ROOMS) ∧
  step lobby (Join "b" d "10:35:00") = (lobby, []) ∧
  (step lobby (Message "b" d "10:35:00")).1 = lobby ∧
  Forall (λ e, event e ≠ "status" ∧ event e ≠ "message")
         (step lobby (Message "b" d "10:35:00")).2.
Proof.
  assert (Hnin : "Chess Club" ∉ CHAT_ROOMS) by (by apply (bool_decide_unpack _)).
  split; [reflexivity|]. split; [exact Hnin|].
  apply (invalid_room_rejected lobby "b" _ "10:35:00" "Chess Club");
    [reflexivity | exact Hnin].
Defined.

(** ** C10: the default room *)

(** C10. A Message without a ['room'] key is handled as a message to
    'General'; 'General' is in [CHAT_ROOMS], so when the kind is not
    private and the stripped text is not empty, one [message] event goes to
    the room 'General'. *)
Theorem default_room_general s sid d now name :
  session s !! sid = Some name →
  d_room d = None →
  d_type d ≠ Some "private" →
  PyStr.strip (default "" (d_msg d)) ≠ "" →
  "General" ∈ CHAT_ROOMS ∧
  step s (Message sid d now) =
  (s, [mkEmit "message"
         (RoomMsg (PyStr.strip (default "" (d_msg d))) name "General" now)
         (ToRoom "General") (SocketIO.members (sio s) (Some "General"))]).
Proof.
  intros Hs Hr Ht Hm. split; [by left|].
  unfold step, handler. rewrite (handleMessage_room _ _ _ _ name) by done.
  cbv zeta. rewrite Hr. change (default "General" None) with "General".
  rewrite bool_decide_eq_true_2; [done|by left].
Qed.

Lemma default_room_general_witness :
  let d := mkData None None (Some " hi there ") None in
  session lobby !! "b" = Some "Guest10315678" ∧
  d_room d = None ∧ d_type d ≠ Some "private" ∧
  PyStr.strip (default "" (d_msg d)) ≠ "" ∧
  "General" ∈ CHAT_ROOMS ∧
  step lobby (Message "b" d "10:35:00") =
  (lobby, [mkEmit "message"
             (RoomMsg "hi there" "Guest10315678" "General" "10:35:00")
             (ToRoom "General") {[ "a"; "b" ]}]).
Proof.
  split; [reflexivity|]. split; [reflexivity|].
  split; [discriminate|]. split; [discriminate|].
  pose proof (default_room_general lobby "b"
    (mkData None None (Some " hi there ") None) "10:35:00" "Guest10315678"
    ltac:(reflexivity) ltac:(reflexivity) ltac:(discriminate)
    ltac:(discriminate)) as [Hin Hstep].
  split; [exact Hin|]. rewrite Hstep. vm_compute. reflexivity.
Defined.

(** ** The transport *)

Section transport_facts.
Implicit Types (rooms : gmap (option string) (gset string)).

Lemma members_enter sid r r' rooms :
  SocketIO.members (SocketIO.enter sid r rooms) r' =
  if decide (r = r') then {[sid]} ∪ SocketIO.members rooms r
  else SocketIO.members rooms r'.
Proof.
  unfold SocketIO.members, SocketIO.enter. destruct (decide (r = r')) as [->|Hne].
  - by rewrite lookup_insert_eq.
  - by rewrite lookup_insert_ne.
Qed.

Lemma members_leave sid r r' rooms :
  SocketIO.members (SocketIO.leave sid r rooms) r' =
  if decide (r = r') then SocketIO.members rooms r ∖ {[sid]}
  else SocketIO.members rooms r'.
Proof.
  unfold SocketIO.members, SocketIO.leave. destruct (decide (r = r')) as [->|Hne].
  - rewrite lookup_alter_eq. destruct (rooms !! r'); simpl; [done|].
    by rewrite empty_difference_L.
  - by rewrite lookup_alter_ne.
Qed.

Lemma members_close sid r rooms :
  SocketIO.members (SocketIO.close sid rooms) r =
  SocketIO.members rooms r ∖ {[sid]}.
Proof.
  unfold SocketIO.members, SocketIO.close. rewrite lookup_fmap.
  destruct (rooms !! r); simpl; [done|]. by rewrite empty_difference_L.
Qed.

Lemma members_open_mono sid r rooms :
  SocketIO.members rooms r ⊆ SocketIO.members (SocketIO.open sid rooms) r.
Proof.
  unfold SocketIO.open. rewrite !members_enter.
  repeat case_decide; subst; try rewrite members_enter;
    repeat case_decide; set_solver.
Qed.

End transport_facts.

(** ** The other handlers, case by case *)

Lemma connect_eq sid http_user guest now s :
  connect sid guest now (transport_open sid http_user s) =
  let name := default guest http_user in
  let au := PyDict.set sid (mkUser name now None) (activeUsers s) in
  let rooms := SocketIO.open sid (sio s) in
  (mkState au (<[sid := name]> (session s)) rooms,
   [mkEmit "activeUsers" (Users (snapshot au)) Broadcast
           (SocketIO.members rooms None)],
   inl tt).
Proof.
  unfold connect, transport_open. unfold_m. simpl.
  destruct http_user as [u|]; simpl.
  - rewrite lookup_insert_eq. rewrite bool_decide_eq_true_2 by eauto. simpl.
    by rewrite lookup_insert_eq.
  - rewrite lookup_delete_eq. rewrite bool_decide_eq_false_2 by (by intros [? ?]).
    simpl. rewrite lookup_insert_eq. by rewrite insert_delete_eq.
Qed.

Lemma accepted_always sid http_user guest now s :
  accepted sid http_user guest now s = true.
Proof. unfold accepted. by rewrite connect_eq. Qed.

Lemma step_connect sid http_user guest now s :
  step s (Connect sid http_user guest now) =
  let name := default guest http_user in
  let au := PyDict.set sid (mkUser name now None) (activeUsers s) in
  let rooms := SocketIO.open sid (sio s) in
  (mkState au (<[sid := name]> (session s)) rooms,
   [mkEmit "activeUsers" (Users (snapshot au)) Broadcast
           (SocketIO.members rooms None)]).
Proof.
  unfold step. rewrite accepted_always. unfold handler. by rewrite connect_eq.
Qed.

Lemma disconnect_eq sid s :
  handler (disconnect sid) s =
  if PyDict.contains sid (activeUsers s)
  then let au := PyDict.del sid (activeUsers s) in
       (mkState au (session s) (sio s),
        [mkEmit "activeUsers" (Users (snapshot au)) Broadcast
                (SocketIO.members (sio s) None)])
  else (s, []).
Proof.
  unfold handler, disconnect. unfold_m.
  by destruct (PyDict.contains sid (activeUsers s)).
Qed.

Lemma onJoin_eq sid d now s :
  handler (onJoin sid d now) s =
  match session s !! sid, d_room d with
  | Some name, Some r =>
      if bool_decide (r ∈ CHAT_ROOMS) then
        let rooms := SocketIO.enter sid (Some r) (sio s) in
        match PyDict.get sid (activeUsers s) with
        | Some u =>
            (mkState (PyDict.set sid
                        (mkUser (username u) (connectedAt u) (Some r))
                        (activeUsers s))
                     (session s) rooms,
             [mkEmit "status"
                     (Status (name +:+ " has joined the room.") "join" now)
                     (ToRoom r) (SocketIO.members rooms (Some r))])
        | None => (mkState (activeUsers s) (session s) rooms, [])
        end
      else (s, [])
  | _, _ => (s, [])
  end.
Proof.
  unfold handler, onJoin. unfold_m.
  destruct (session s !! sid) as [name|]; [|done].
  destruct (d_room d) as [r|]; [|done].
  destruct (bool_decide (r ∈ CHAT_ROOMS)) eqn:Hr; [|done]. simpl.
  apply bool_decide_eq_true, CHAT_ROOMS_nonempty in Hr.
  destruct (PyDict.get sid (activeUsers s)); simpl; [|done].
  by destruct (decide (r = "")).
Qed.

Lemma onLeave_eq sid d now s :
  handler (onLeave sid d now) s =
  match session s !! sid, d_room d with
  | Some name, Some r =>
      let rooms := SocketIO.leave sid (Some r) (sio s) in
      (mkState (match PyDict.get sid (activeUsers s) with
                | Some u => PyDict.set sid
                              (mkUser (username u) (connectedAt u) None)
                              (activeUsers s)
                | None => activeUsers s
                end)
               (session s) rooms,
       [mkEmit "status"
               (Status (name +:+ " has left the room.") "leave" now)
               (ToRoom r) (SocketIO.deliver rooms (ToRoom r))])
  | _, _ => (s, [])
  end.
Proof.
  unfold handler, onLeave. unfold_m.
  destruct (session s !! sid) as [name|]; [|done].
  destruct (d_room d) as [r|]; [|done]. simpl.
  unfold PyDict.contains.
  destruct (PyDict.get sid (activeUsers s)) as [u|] eqn:Hu; simpl;
    rewrite ?Hu; done.
Qed.

Lemma step_disconnect sid s :
  step s (Disconnect sid) =
  if PyDict.contains sid (activeUsers s)
  then let au := PyDict.del sid (activeUsers s) in
       (mkState au (delete sid (session s)) (SocketIO.close sid (sio s)),
        [mkEmit "activeUsers" (Users (snapshot au)) Broadcast
                (SocketIO.members (sio s) None)])
  else (transport_close sid s, []).
Proof.
  unfold step. rewrite disconnect_eq.
  by destruct (PyDict.contains sid (activeUsers s)).
Qed.

Lemma step_message_state sid d now s : (step s (Message sid d now)).1 = s.
Proof. apply handleMessage_state. Qed.

(** ** Invariants of the state *)

Lemma Forall_set {V} (P : string * V → Prop) k v (d : list (string * V)) :
  Forall P d → P (k, v) → Forall P (PyDict.set k v d).
Proof.
  rewrite !Forall_forall. intros Hd Hkv [k' v'] [->|Hin]%elem_set; auto.
Qed.

Lemma Forall_del {V} (P : string * V → Prop) k (d : list (string * V)) :
  Forall P d → Forall P (PyDict.del k d).
Proof.
  rewrite !Forall_forall. intros Hd [k' v'] [_ Hin]%elem_del. auto.
Qed.

Lemma elem_key_ne {V} k k' (v : V) (d : list (string * V)) :
  (k', v) ∈ d → PyDict.get k d = None → k' ≠ k.
Proof.
  intros Hin Hget%get_None_keys ->. apply Hget.
  unfold PyDict.keys. apply list_elem_of_fmap. by exists (k, v).
Qed.

Lemma rooms_valid_init : rooms_valid init.
Proof. constructor. Qed.

Lemma rooms_valid_step s e : rooms_valid s → rooms_valid (step s e).1.
Proof.
  unfold rooms_valid. intros Hs. destruct e as [sid h g now|sid|sid d now|sid d now|sid d now].
  - rewrite step_connect. simpl. apply Forall_set; [done|]. by intros r [=].
  - rewrite step_disconnect.
    destruct (PyDict.contains sid (activeUsers s)); simpl; [|done].
    by apply Forall_del.
  - unfold step. rewrite onJoin_eq.
    destruct (session s !! sid) as [name|]; [|done].
    destruct (d_room d) as [r|]; [|done].
    destruct (bool_decide (r ∈ CHAT_ROOMS)) eqn:Hr; [|done].
    apply bool_decide_eq_true in Hr.
    destruct (PyDict.get sid (activeUsers s)) as [u|]; simpl; [|done].
    apply Forall_set; [done|]. by intros r' [= <-].
  - unfold step. rewrite onLeave_eq.
    destruct (session s !! sid) as [name|]; [|done].
    destruct (d_room d) as [r|]; [|done]. simpl.
    destruct (PyDict.get sid (activeUsers s)) as [u|]; [|done].
    apply Forall_set; [done|]. by intros r' [=].
  - by rewrite step_message_state.
Qed.

Lemma consistent_init : consistent init.
Proof.
  split; [constructor|]. intros k u r H. by apply elem_of_nil in H.
Qed.

Lemma consistent_step s e : consistent s → consistent (step s e).1.
Proof.
  intros [Hnd Hs].
  destruct e as [sid h g now|sid|sid d now|sid d now|sid d now].
  - rewrite step_connect. simpl. split; [by apply NoDup_keys_set|].
    intros k u r [[-> ->]|[Hne Hin]]%elem_set_nodup Hr; [done| |done].
    simpl. by apply members_open_mono, (Hs k u).
  - rewrite step_disconnect.
    destruct (PyDict.contains sid (activeUsers s)) eqn:Hc; simpl.
    + split; [by apply NoDup_keys_del|].
      intros k u r [Hne Hin]%elem_del Hr. cbn [sio]. rewrite members_close.
      apply elem_of_difference. split; [by apply (Hs k u)|].
      by intros ->%elem_of_singleton.
    + split; [done|]. unfold transport_close. simpl.
      intros k u r Hin Hr. rewrite members_close.
      apply elem_of_difference. split; [by apply (Hs k u)|].
      intros ->%elem_of_singleton.
      by eapply elem_key_ne; [exact Hin|by apply contains_false|].
  - unfold step. rewrite onJoin_eq.
    destruct (session s !! sid) as [name|]; [|done].
    destruct (d_room d) as [r0|]; [|done].
    destruct (bool_decide (r0 ∈ CHAT_ROOMS)); [|done].
    destruct (PyDict.get sid (activeUsers s)) as [u0|]; simpl.
    + split; [by apply NoDup_keys_set|].
      intros k u r [[-> ->]|[Hne Hin]]%elem_set_nodup Hr; [| |done].
      * simpl in Hr. injection Hr as <-.
        cbn [sio]. rewrite members_enter, decide_True by done. set_solver.
      * cbn [sio]. rewrite members_enter. case_decide as Heq.
        -- injection Heq as <-. apply elem_of_union_r. by apply (Hs k u).
        -- by apply (Hs k u).
    + split; [done|]. intros k u r Hin Hr.
      cbn [sio]. rewrite members_enter. case_decide as Heq.
      * injection Heq as <-. apply elem_of_union_r. by apply (Hs k u).
      * by apply (Hs k u).
  - unfold step. rewrite onLeave_eq.
    destruct (session s !! sid) as [name|]; [|done].
    destruct (d_room d) as [r0|]; [|done]. simpl.
    assert (Hleave : ∀ k u r, k ≠ sid → (k, u) ∈ activeUsers s →
              room u = Some r →
              k ∈ SocketIO.members (SocketIO.leave sid (Some r0) (sio s)) (Some r)).
    { intros k u r Hne Hin Hr. rewrite members_leave. case_decide as Heq.
      - injection Heq as <-. apply elem_of_difference.
        split; [by apply (Hs k u)|]. by intros ->%elem_of_singleton.
      - by apply (Hs k u). }
    destruct (PyDict.get sid (activeUsers s)) as [u0|] eqn:Hget.
    + split; [by apply NoDup_keys_set|].
      intros k u r [[-> ->]|[Hne Hin]]%elem_set_nodup Hr; [done| |done].
      by apply (Hleave k u).
    + split; [done|]. intros k u r Hin Hr. apply (Hleave k u); [|done..].
      by eapply elem_key_ne.
  - by rewrite step_message_state.
Qed.

Lemma run_invariant (P : State → Prop) s evs :
  (∀ s e, P s → P (step s e).1) → P s → P (run s evs).1.
Proof.
  intros Hstep. revert s. induction evs as [|e evs IH]; intros s Hs; simpl; [done|].
  specialize (Hstep s e Hs). destruct (step s e) as [s1 out1].
  specialize (IH s1 Hstep). by destruct (run s1 evs).
Qed.

Lemma consistent_reachable evs : consistent (run init evs).1.
Proof. apply run_invariant; [apply consistent_step | apply consistent_init]. Qed.

Lemma rooms_valid_reachable evs : rooms_valid (run init evs).1.
Proof. apply run_invariant; [apply rooms_valid_step | apply rooms_valid_init]. Qed.

Lemma keys_set_elem {V} k k' (v : V) (d : list (string * V)) :
  k' ∈ PyDict.keys (PyDict.set k v d) ↔ k' = k ∨ k' ∈ PyDict.keys d.
Proof.
  destruct (decide (k ∈ PyDict.keys d)) as [Hin|Hnin].
  - rewrite keys_set_present by done. split; [by right|].
    by intros [->|?].
  - rewrite keys_set_absent by done.
    rewrite elem_of_app, list_elem_of_singleton. tauto.
Qed.

Lemma sessions_known_step s e : sessions_known s → sessions_known (step s e).1.
Proof.
  unfold sessions_known. intros Hs.
  destruct e as [sid h g now|sid|sid d now|sid d now|sid d now].
  - rewrite step_connect. simpl. intros k [->|Hk]%keys_set_elem.
    + rewrite lookup_insert_eq. eauto.
    + destruct (decide (sid = k)) as [->|Hne].
      * rewrite lookup_insert_eq. eauto.
      * rewrite lookup_insert_ne by done. auto.
  - rewrite step_disconnect.
    destruct (PyDict.contains sid (activeUsers s)) eqn:Hc; simpl.
    + intros k ([k' u] & -> & [Hne Hin]%elem_del)%list_elem_of_fmap. simpl.
      rewrite lookup_delete_ne by done. apply Hs.
      apply list_elem_of_fmap. by exists (k', u).
    + intros k Hk. rewrite lookup_delete_ne; [by apply Hs|].
      intros ->. apply contains_false, get_None_keys in Hc. done.
  - unfold step. rewrite onJoin_eq.
    destruct (session s !! sid) as [name|]; [|done].
    destruct (d_room d) as [r|]; [|done].
    destruct (bool_decide (r ∈ CHAT_ROOMS)); [|done].
    destruct (PyDict.get sid (activeUsers s)) as [u|] eqn:Hget; simpl; [|done].
    intros k [->|Hk]%keys_set_elem; [|by apply Hs].
    apply Hs. destruct (decide (sid ∈ PyDict.keys (activeUsers s))); [done|].
    apply get_None_keys in n. congruence.
  - unfold step. rewrite onLeave_eq.
    destruct (session s !! sid) as [name|]; [|done].
    destruct (d_room d) as [r|]; [|done]. simpl.
    destruct (PyDict.get sid (activeUsers s)) as [u|] eqn:Hget; [|done].
    intros k [->|Hk]%keys_set_elem; [|by apply Hs].
    apply Hs. destruct (decide (sid ∈ PyDict.keys (activeUsers s))); [done|].
    apply get_None_keys in n. congruence.
  - by rewrite step_message_state.
Qed.

(** From the start, every registered connection has a display name in its
    session: the handlers of its events do not stop at [session['username']]. *)
Lemma sessions_known_reachable evs : sessions_known (run init evs).1.
Proof.
  apply run_invariant; [apply sessions_known_step|].
  intros k Hk. by apply elem_of_nil in Hk.
Qed.

(** A Connect puts the connection in the room named by its sid, alone when
    nobody was in a room of that name. *)
Lemma connect_own_room s sid http_user guest now :
  SocketIO.members (sio s) (Some sid) ⊆ {[sid]} →
  SocketIO.members (sio (step s (Connect sid http_user guest now)).1)
                   (Some sid) = {[sid]}.
Proof.
  intros Hsub. rewrite step_connect. simpl. unfold SocketIO.open.
  rewrite members_enter, decide_True by done.
  rewrite members_enter, decide_False by done.
  apply set_eq. intros x. rewrite elem_of_union. split; [|by left].
  intros [Hx|Hx]; [done|by apply Hsub].
Qed.

(** ** C4: the recorded room is a room of the directory *)

(** C4. Every event (connect, disconnect, join, leave, message) keeps the
    invariant that the room recorded for a connection, when set, is a
    member of [CHAT_ROOMS]. *)
Theorem registry_rooms_valid s e : rooms_valid s → rooms_valid (step s e).1.
Proof. apply rooms_valid_step. Qed.

Lemma registry_rooms_valid_witness :
  rooms_valid lobby ∧
  rooms_valid (step lobby (Join "b" (join_data "Anime Club") "10:35:00")).1.
Proof.
  assert (H : rooms_valid lobby).
  { unfold rooms_valid. vm_compute activeUsers.
    repeat (constructor; [simpl; intros r [= <-]; set_solver|]).
    constructor. }
  split; [exact H|]. apply (registry_rooms_valid lobby). exact H.
Defined.

(** ** C7: disconnecting twice *)

(** C7. A Disconnect for a connection that is not in [activeUsers] sends
    nothing and leaves [activeUsers] as it is; after any Disconnect the
    connection is no longer in [activeUsers], so a second Disconnect for it
    sends nothing. *)
Theorem disconnect_idempotent s sid :
  (PyDict.contains sid (activeUsers s) = false →
   (step s (Disconnect sid)).2 = [] ∧
   activeUsers (step s (Disconnect sid)).1 = activeUsers s) ∧
  (let s1 := (step s (Disconnect sid)).1 in
   PyDict.contains sid (activeUsers s1) = false ∧
   (step s1 (Disconnect sid)).2 = [] ∧
   activeUsers (step s1 (Disconnect sid)).1 = activeUsers s1).
Proof.
  assert (Habsent : ∀ s0, PyDict.contains sid (activeUsers s0) = false →
    (step s0 (Disconnect sid)).2 = [] ∧
    activeUsers (step s0 (Disconnect sid)).1 = activeUsers s0).
  { intros s0 H. rewrite step_disconnect, H. done. }
  split; [apply Habsent|]. cbv zeta.
  assert (Hgone : PyDict.contains sid
                    (activeUsers (step s (Disconnect sid)).1) = false).
  { rewrite step_disconnect.
    destruct (PyDict.contains sid (activeUsers s)) eqn:Hc; simpl; [|done].
    apply contains_false, get_del_eq. }
  split; [exact Hgone|]. by apply Habsent.
Qed.

Lemma disconnect_idempotent_witness :
  let s1 := (step lobby (Disconnect "a")).1 in
  PyDict.contains "a" (activeUsers s1) = false ∧
  (step s1 (Disconnect "a")).2 = [] ∧
  activeUsers (step s1 (Disconnect "a")).1 = activeUsers s1.
Proof.
  cbv zeta. split; [reflexivity|].
  apply (proj1 (disconnect_idempotent (step lobby (Disconnect "a")).1 "a")).
  reflexivity.
Defined.

(** ** C3: who gets the leave notice *)

(** C3, as the code has it. A Leave by a connection with a session name
    sends one [status] event of type leave.  [onLeave] calls [leave_room]
    before [emit], and the recipients are those of the room in the state
    the handler leaves behind, in which the recorded room of the connection
    is cleared when it has an entry.  They are taken from the rooms of the
    transport, not from the recorded rooms: for a room name that is not
    empty they are the members the room of the transport had before,
    without the leaver, who therefore never gets the notice; for the empty
    name, that the transport takes for no room, they are all the clients. *)
Theorem leave_notice_excludes_leaver s sid d now name r :
  session s !! sid = Some name →
  d_room d = Some r →
  let s' := (step s (Leave sid d now)).1 in
  (step s (Leave sid d now)).2 =
    [mkEmit "status" (Status (name +:+ " has left the room.") "leave" now)
            (ToRoom r) (SocketIO.deliver (sio s') (ToRoom r))] ∧
  PyDict.get sid (activeUsers s') =
    (λ u, mkUser (username u) (connectedAt u) None) <$>
      PyDict.get sid (activeUsers s) ∧
  (r ≠ "" →
   SocketIO.deliver (sio s') (ToRoom r) =
     SocketIO.members (sio s) (Some r) ∖ {[sid]} ∧
   sid ∉ SocketIO.deliver (sio s') (ToRoom r)) ∧
  (r = "" →
   SocketIO.deliver (sio s') (ToRoom r) = SocketIO.members (sio s) None).
Proof.
  intros Hname Hr. cbv zeta. unfold step. rewrite onLeave_eq, Hname, Hr.
  cbn [fst snd activeUsers sio]. split; [done|]. split.
  { destruct (PyDict.get sid (activeUsers s)) as [u|] eqn:Hget; simpl.
    - apply get_set_eq.
    - done. }
  split.
  - intros Hne. rewrite deliver_room by done.
    rewrite members_leave, decide_True by done. split; [done|].
    intros [_ Hn]%elem_of_difference. apply Hn. by apply elem_of_singleton.
  - intros ->. rewrite deliver_no_room, members_leave. by rewrite decide_False.
Qed.

Lemma leave_notice_excludes_leaver_witness :
  let e := Leave "a" (join_data "General") "10:35:00" in
  session lobby !! "a" = Some "Guest10301234" ∧
  (step lobby e).2 =
    [mkEmit "status"
            (Status "Guest10301234 has left the room." "leave" "10:35:00")
            (ToRoom "General") {[ "b" ]}] ∧
  PyDict.get "a" (activeUsers (step lobby e).1) =
    Some (mkUser "Guest10301234" "10:30:00" None).
Proof.
  cbv zeta. split; [reflexivity|].
  destruct (leave_notice_excludes_leaver lobby "a" (join_data "General")
              "10:35:00" "Guest10301234" "General" ltac:(reflexivity)
              ltac:(reflexivity)) as (Hout & Hget & Hroom & _).
  destruct (Hroom ltac:(discriminate)) as [Hrcpt _].
  split; [|by rewrite Hget].
  rewrite Hout, Hrcpt. vm_compute. reflexivity.
Defined.

(** The claim as the specification words it fails on two inputs.  A Leave
    naming the empty room is sent to every client, the leaver included.
    And in [lobby] the notice of [b] leaving General goes to [a], whose
    recorded room is Academics: in the registry nobody remains in General. *)
Lemma leave_notice_counterexample :
  (let e := Leave "a" (mkData (Some "") None None None) "10:35:00" in
   ∃ em, (step lobby e).2 = [em] ∧ event em = "status" ∧ "a" ∈ rcpt em) ∧
  (let e := Leave "b" (join_data "General") "10:35:00" in
   ∃ em, (step lobby e).2 = [em] ∧ event em = "status" ∧
         rcpt em = {[ "a" ]} ∧
         room <$> PyDict.get "a" (activeUsers (step lobby e).1)
           = Some (Some "Academics") ∧
         membersOf "General" (activeUsers (step lobby e).1) = ∅).
Proof.
  cbv zeta. split.
  - eexists. split; [vm_compute; reflexivity|]. split; [reflexivity|].
    by vm_compute.
  - eexists. split; [vm_compute; reflexivity|]. split; [reflexivity|].
    split; [by vm_compute|]. split; [reflexivity|]. by vm_compute.
Qed.

(** ** C1: who gets a room message *)

Lemma elem_of_membersOf k r au :
  k ∈ membersOf r au ↔ ∃ u, (k, u) ∈ au ∧ room u = Some r.
Proof.
  unfold membersOf. rewrite elem_of_list_to_set, list_elem_of_fmap. split.
  - intros ([k' u] & -> & [Hr Hin]%list_elem_of_filter). by exists u.
  - intros (u & Hin & Hr). exists (k, u). split; [done|].
    by apply list_elem_of_filter.
Qed.

(** A Join never takes a connection out of a room of the transport. *)
Lemma join_keeps_membership s sid d now r :
  SocketIO.members (sio s) r ⊆
  SocketIO.members (sio (step s (Join sid d now)).1) r.
Proof.
  unfold step. rewrite onJoin_eq.
  destruct (session s !! sid) as [name|]; [|done].
  destruct (d_room d) as [r0|]; [|done].
  destruct (bool_decide (r0 ∈ CHAT_ROOMS)); [|done].
  destruct (PyDict.get sid (activeUsers s)) as [u|]; simpl;
    rewrite members_enter; case_decide; subst; set_solver.
Qed.

(** C1, as the code has it. A Message of a kind other than private, with a
    text that is not blank and a room of [CHAT_ROOMS], sends exactly one
    [message] event and changes nothing.  Its recipients are the members of
    the transport's room of that name, the sender only when it is one of
    them.  In a consistent state these include every connection whose
    recorded room is that room; and since no Join takes a connection out of
    a room of the transport, a connection that has joined another room
    since is still among them until it leaves or disconnects. *)
Theorem room_message_recipients s sid d now name :
  consistent s →
  session s !! sid = Some name →
  d_type d ≠ Some "private" →
  PyStr.strip (default "" (d_msg d)) ≠ "" →
  default "General" (d_room d) ∈ CHAT_ROOMS →
  let r := default "General" (d_room d) in
  step s (Message sid d now) =
    (s, [mkEmit "message"
                (RoomMsg (PyStr.strip (default "" (d_msg d))) name r now)
                (ToRoom r) (SocketIO.members (sio s) (Some r))]) ∧
  membersOf r (activeUsers s) ⊆ SocketIO.members (sio s) (Some r) ∧
  (∀ sid' d' now',
     SocketIO.members (sio s) (Some r) ⊆
     SocketIO.members (sio (step s (Join sid' d' now')).1) (Some r)).
Proof.
  intros [_ Hs] Hname Ht Hm Hr r. split; [|split].
  - unfold step, handler. rewrite (handleMessage_room _ _ _ _ name) by done.
    cbv zeta. fold r. by rewrite bool_decide_eq_true_2.
  - intros k (u & Hin & Hu)%elem_of_membersOf. by apply (Hs k u).
  - intros sid' d' now'. apply join_keeps_membership.
Qed.

Lemma consistent_lobby : consistent lobby.
Proof.
  split.
  - by apply (bool_decide_unpack _).
  - intros k u r Hin Hr. vm_compute in Hin.
    repeat (apply elem_of_cons in Hin as [Hin|Hin];
            [injection Hin as -> ->; injection Hr as <-; by vm_compute|]).
    by apply elem_of_nil in Hin.
Defined.

Lemma room_message_recipients_witness :
  let d := mkData (Some "General") None (Some "hi") None in
  consistent lobby ∧
  session lobby !! "b" = Some "Guest10315678" ∧
  step lobby (Message "b" d "10:35:00") =
    (lobby, [mkEmit "message"
                    (RoomMsg "hi" "Guest10315678" "General" "10:35:00")
                    (ToRoom "General") {[ "a"; "b" ]}]).
Proof.
  cbv zeta. split; [exact consistent_lobby|]. split; [reflexivity|].
  destruct (room_message_recipients lobby "b"
              (mkData (Some "General") None (Some "hi") None) "10:35:00"
              "Guest10315678" consistent_lobby ltac:(reflexivity)
              ltac:(discriminate) ltac:(discriminate)
              ltac:(by left)) as (-> & _ & _).
  vm_compute. reflexivity.
Defined.

(** The claim as the specification words it fails in [lobby]: [a] joined
    General and then Academics, so its recorded room is Academics, and it
    still gets a message sent to General. *)
Lemma room_message_recipients_counterexample :
  let d := mkData (Some "General") None (Some "hi") None in
  ∃ e, step lobby (Message "b" d "10:35:00") = (lobby, [e]) ∧
       event e = "message" ∧
       room <$> PyDict.get "a" (activeUsers lobby) = Some (Some "Academics") ∧
       ("a" ∉ membersOf "General" (activeUsers lobby)) ∧
       "a" ∈ rcpt e ∧
       rcpt e ≠ membersOf "General" (activeUsers lobby).
Proof.
  cbv zeta. eexists. split; [vm_compute; reflexivity|]. simpl.
  split; [reflexivity|]. split; [reflexivity|].
  assert (Hout : "a" ∉ membersOf "General" (activeUsers lobby)).
  { vm_compute. discriminate. }
  assert (Hin : "a" ∈ ({[ "a"; "b" ]} : gset string)) by (by vm_compute).
  split; [exact Hout|]. split; [exact Hin|].
  intros Heq. apply Hout. rewrite <- Heq. exact Hin.
Qed.

(** ** C2: a Connect for an id that is already registered *)

(** C2, as the code has it. [connect] has no check for an id that is
    already a key of [activeUsers]: it ends normally, stores a new entry
    (the display name of the session, the new connect time, no room) in the
    place of the old one, and broadcasts the snapshot.  The set and the
    order of the keys do not change. *)
Theorem connect_replaces_existing s sid http_user guest now old :
  PyDict.get sid (activeUsers s) = Some old →
  let s' := (step s (Connect sid http_user guest now)).1 in
  let fresh := mkUser (default guest http_user) now None in
  accepted sid http_user guest now s = true ∧
  PyDict.get sid (activeUsers s') = Some fresh ∧
  PyDict.keys (activeUsers s') = PyDict.keys (activeUsers s) ∧
  (step s (Connect sid http_user guest now)).2 =
    [mkEmit "activeUsers" (Users (snapshot (activeUsers s'))) Broadcast
            (SocketIO.members (sio s') None)].
Proof.
  intros Hold. cbv zeta. rewrite step_connect. simpl.
  split; [apply accepted_always|]. split; [apply get_set_eq|].
  split; [|done]. apply keys_set_present.
  destruct (decide (sid ∈ PyDict.keys (activeUsers s))) as [|Hnin]; [done|].
  apply get_None_keys in Hnin. congruence.
Qed.

Lemma connect_replaces_existing_witness :
  let e := Connect "a" None "Guest10359999" "10:35:00" in
  PyDict.get "a" (activeUsers lobby) =
    Some (mkUser "Guest10301234" "10:30:00" (Some "Academics")) ∧
  PyDict.get "a" (activeUsers (step lobby e).1) =
    Some (mkUser "Guest10359999" "10:35:00" None) ∧
  PyDict.keys (activeUsers (step lobby e).1) = ["a"; "b"].
Proof.
  cbv zeta. split; [reflexivity|].
  destruct (connect_replaces_existing lobby "a" None "Guest10359999"
              "10:35:00" _ ltac:(reflexivity)) as (_ & Hget & Hkeys & _).
  split; [exact Hget|]. rewrite Hkeys. reflexivity.
Defined.

(** The claim as the specification words it fails in [lobby]: a second
    Connect for [a] is accepted, replaces the entry of [a] and is followed
    by a broadcast. *)
Lemma duplicate_connect_counterexample :
  let e := Connect "a" None "Guest10359999" "10:35:00" in
  PyDict.contains "a" (activeUsers lobby) = true ∧
  accepted "a" None "Guest10359999" "10:35:00" lobby = true ∧
  PyDict.get "a" (activeUsers lobby) =
    Some (mkUser "Guest10301234" "10:30:00" (Some "Academics")) ∧
  PyDict.get "a" (activeUsers (step lobby e).1) =
    Some (mkUser "Guest10359999" "10:35:00" None) ∧
  (step lobby e).2 =
    [mkEmit "activeUsers" (Users ["Guest10359999"; "Guest10315678"])
            Broadcast {[ "a"; "b" ]}].
Proof. cbv zeta. repeat split; vm_compute; reflexivity. Qed.

(** ** C5: the presence snapshot *)







(** * Further properties of the handlers *)

(** ** Dictionaries, continued *)

Lemma set_get_id {V} k (v : V) (d : list (string * V)) :
  PyDict.get k d = Some v → PyDict.set k v d = d.
Proof.
  induction d as [|[k' v'] d IH]; simpl; [done|].
  destruct (decide (k' = k)) as [->|Hne].
  - by intros [= ->].
  - intros H. by rewrite IH.
Qed.

Lemma set_set {V} k (v v' : V) (d : list (string * V)) :
  PyDict.set k v (PyDict.set k v' d) = PyDict.set k v d.
Proof.
  induction d as [|[k0 v0] d IH]; simpl.
  - by rewrite decide_True.
  - destruct (decide (k0 = k)) as [->|Hne]; simpl.
    + by rewrite decide_True.
    + rewrite decide_False by done. by rewrite IH.
Qed.

Lemma set_absent {V} k (v : V) (d : list (string * V)) :
  PyDict.get k d = None → PyDict.set k v d = (d ++ [(k, v)])%list.
Proof.
  induction d as [|[k' v'] d IH]; simpl; [done|].
  destruct (decide (k' = k)) as [->|Hne]; [done|].
  intros H. by rewrite IH.
Qed.

Lemma del_set_absent {V} k (v : V) (d : list (string * V)) :
  PyDict.get k d = None → PyDict.del k (PyDict.set k v d) = d.
Proof.
  intros H. rewrite set_absent by done. unfold PyDict.del.
  rewrite filter_app. fold (PyDict.del k d). rewrite del_absent by done.
  rewrite filter_cons_False, filter_nil by (simpl; auto).
  by rewrite app_nil_r.
Qed.

Lemma fmap_set_same {V W} (g : string * V → W) k (v u : V)
    (d : list (string * V)) :
  PyDict.get k d = Some u → g (k, v) = g (k, u) →
  g <$> PyDict.set k v d = g <$> d.
Proof.
  intros Hget Hg. induction d as [|[k' v'] d IH]; [done|].
  cbn [PyDict.get PyDict.set] in *.
  destruct (decide (k' = k)) as [->|Hne]; rewrite !fmap_cons.
  - injection Hget as ->. by rewrite Hg.
  - by rewrite IH.
Qed.

Lemma get_Some_keys {V} k (v : V) (d : list (string * V)) :
  PyDict.get k d = Some v → k ∈ PyDict.keys d.
Proof.
  intros H. destruct (decide (k ∈ PyDict.keys d)) as [|Hn]; [done|].
  apply get_None_keys in Hn. congruence.
Qed.

(** ** Join *)

(** X1. A Join of a registered connection to a room of [CHAT_ROOMS] records
    the room in its entry, keeping its name, its connect time and the order
    of the entries, puts it in the room of the transport, and sends one
    [status] event of type join to the members of the room, the joiner
    included. *)
Theorem join_announces_to_room s sid d now name r u :
  session s !! sid = Some name →
  d_room d = Some r → r ∈ CHAT_ROOMS →
  PyDict.get sid (activeUsers s) = Some u →
  let s' := (step s (Join sid d now)).1 in
  PyDict.get sid (activeUsers s') =
    Some (mkUser (username u) (connectedAt u) (Some r)) ∧
  PyDict.keys (activeUsers s') = PyDict.keys (activeUsers s) ∧
  SocketIO.members (sio s') (Some r) =
    {[sid]} ∪ SocketIO.members (sio s) (Some r) ∧
  (step s (Join sid d now)).2 =
    [mkEmit "status" (Status (name +:+ " has joined the room.") "join" now)
            (ToRoom r) ({[sid]} ∪ SocketIO.members (sio s) (Some r))].
Proof.
  intros Hname Hr Hin Hget. cbv zeta. unfold step. rewrite onJoin_eq.
  rewrite Hname, Hr, bool_decide_eq_true_2, Hget by done. simpl.
  rewrite members_enter, decide_True by done.
  split; [apply get_set_eq|]. split; [|done].
  apply keys_set_present. by eapply get_Some_keys.
Qed.

Lemma join_announces_to_room_witness :
  let e := Join "b" (join_data "Anime Club") "10:35:00" in
  session lobby !! "b" = Some "Guest10315678" ∧
  "Anime Club" ∈ CHAT_ROOMS ∧
  PyDict.get "b" (activeUsers (step lobby e).1) =
    Some (mkUser "Guest10315678" "10:31:00" (Some "Anime Club")) ∧
  (step lobby e).2 =
    [mkEmit "status" (Status "Guest10315678 has joined the room." "join"
                             "10:35:00")
            (ToRoom "Anime Club") {[ "b" ]}].
Proof.
  cbv zeta. split; [reflexivity|].
  assert (Hin : "Anime Club" ∈ CHAT_ROOMS) by (by apply (bool_decide_unpack _)).
  split; [exact Hin|].
  destruct (join_announces_to_room lobby "b" (join_data "Anime Club")
              "10:35:00" "Guest10315678" "Anime Club"
              (mkUser "Guest10315678" "10:31:00" (Some "General"))
              ltac:(reflexivity) ltac:(reflexivity) Hin ltac:(reflexivity))
    as (Hget & _ & _ & Hout).
  split; [exact Hget|]. rewrite Hout. vm_compute. reflexivity.
Defined.

(** X2. [onJoin] enters the room of the transport before it looks up the
    entry of the connection: a Join from a connection that has a session
    name but no entry in [activeUsers] puts it in the room, so that it gets
    the events of the room from then on, but sends no notice and leaves
    [activeUsers] as it is. *)
Theorem join_without_entry s sid d now name r :
  session s !! sid = Some name →
  d_room d = Some r → r ∈ CHAT_ROOMS →
  PyDict.get sid (activeUsers s) = None →
  let s' := (step s (Join sid d now)).1 in
  (step s (Join sid d now)).2 = [] ∧
  activeUsers s' = activeUsers s ∧
  SocketIO.members (sio s') (Some r) =
    {[sid]} ∪ SocketIO.members (sio s) (Some r).
Proof.
  intros Hname Hr Hin Hget. cbv zeta. unfold step. rewrite onJoin_eq.
  rewrite Hname, Hr, bool_decide_eq_true_2, Hget by done. simpl.
  by rewrite members_enter, decide_True.
Qed.

(** A state in which [c] has a session name and no entry. *)
Lemma join_without_entry_witness :
  let s := mkState [] {[ "c" := "Guest10409999" ]} ∅ in
  let e := Join "c" (join_data "General") "10:41:00" in
  session s !! "c" = Some "Guest10409999" ∧
  PyDict.get "c" (activeUsers s) = None ∧
  (step s e).2 = [] ∧
  activeUsers (step s e).1 = [] ∧
  SocketIO.members (sio (step s e).1) (Some "General") = {[ "c" ]}.
Proof.
  cbv zeta. split; [by vm_compute|]. split; [reflexivity|].
  destruct (join_without_entry
              (mkState [] {[ "c" := "Guest10409999" ]} ∅) "c"
              (join_data "General") "10:41:00" "Guest10409999" "General"
              ltac:(by vm_compute) ltac:(reflexivity)
              ltac:(by apply (bool_decide_unpack _)) ltac:(reflexivity))
    as (Hout & Hau & Hm).
  split; [exact Hout|]. split; [exact Hau|]. rewrite Hm.
  vm_compute. reflexivity.
Defined.

(** X3. A missing key stops a handler before it does anything.  Without a
    ['username'] in the session, or without a ['room'] in the data, a Join
    and a Leave send nothing and change nothing; without a ['username'] in
    the session a Message sends nothing and changes nothing. *)
Theorem missing_key_ignored s sid d now :
  (session s !! sid = None ∨ d_room d = None →
   step s (Join sid d now) = (s, []) ∧ step s (Leave sid d now) = (s, [])) ∧
  (session s !! sid = None → step s (Message sid d now) = (s, [])).
Proof.
  split.
  - intros H. unfold step. rewrite onJoin_eq, onLeave_eq.
    destruct H as [->| ->]; [done|]. by destruct (session s !! sid).
  - intros H. unfold step, handler. by rewrite handleMessage_no_session.
Qed.

Lemma missing_key_ignored_witness :
  let d := mkData None None (Some "hi") None in
  d_room d = None ∧
  step lobby (Join "a" d "10:35:00") = (lobby, []) ∧
  step lobby (Leave "a" d "10:35:00") = (lobby, []) ∧
  session lobby !! "z" = None ∧
  step lobby (Message "z" d "10:35:00") = (lobby, []).
Proof.
  cbv zeta. split; [reflexivity|].
  destruct (missing_key_ignored lobby "a" (mkData None None (Some "hi") None)
              "10:35:00") as [Hroom _].
  destruct (Hroom (or_intror eq_refl)) as [Hj Hl].
  split; [exact Hj|]. split; [exact Hl|]. split; [reflexivity|].
  apply (proj2 (missing_key_ignored lobby "z"
                  (mkData None None (Some "hi") None) "10:35:00")).
  reflexivity.
Defined.

(** ** Leave *)

(** X4. [onLeave] does not compare the room it is given with the recorded
    room and does not look it up in [CHAT_ROOMS]: a Leave naming any room
    clears the recorded room of a registered connection, while in the
    transport the connection leaves the named room only and stays a member
    of every other room, the recorded one included. *)
Theorem leave_clears_any_record s sid d now name r' u :
  session s !! sid = Some name →
  d_room d = Some r' →
  PyDict.get sid (activeUsers s) = Some u →
  let s' := (step s (Leave sid d now)).1 in
  PyDict.get sid (activeUsers s') =
    Some (mkUser (username u) (connectedAt u) None) ∧
  PyDict.keys (activeUsers s') = PyDict.keys (activeUsers s) ∧
  (∀ r, r ≠ Some r' →
        SocketIO.members (sio s') r = SocketIO.members (sio s) r).
Proof.
  intros Hname Hr Hget. cbv zeta. unfold step. rewrite onLeave_eq.
  rewrite Hname, Hr, Hget. simpl.
  split; [apply get_set_eq|]. split.
  - apply keys_set_present. by eapply get_Some_keys.
  - intros r Hne. rewrite members_leave. by rewrite decide_False.
Qed.

Lemma leave_clears_any_record_witness :
  let e := Leave "b" (join_data "Chess Club") "10:35:00" in
  PyDict.get "b" (activeUsers lobby) =
    Some (mkUser "Guest10315678" "10:31:00" (Some "General")) ∧
  PyDict.get "b" (activeUsers (step lobby e).1) =
    Some (mkUser "Guest10315678" "10:31:00" None) ∧
  SocketIO.members (sio (step lobby e).1) (Some "General") = {[ "a"; "b" ]}.
Proof.
  cbv zeta. split; [reflexivity|].
  destruct (leave_clears_any_record lobby "b" (join_data "Chess Club")
              "10:35:00" "Guest10315678" "Chess Club" _
              ltac:(reflexivity) ltac:(reflexivity) ltac:(reflexivity))
    as (Hget & _ & Hrooms).
  split; [exact Hget|].
  rewrite (Hrooms (Some "General")) by discriminate.
  vm_compute. reflexivity.
Defined.

(** X5. A Join followed by a Leave of the same room, by a registered
    connection: the connection is out of the room of the transport, the
    other members are as before, and its recorded room is cleared; the
    leave notice goes to the members the room had before the Join, without
    the connection.  When it had no recorded room before, [activeUsers] is
    back to what it was. *)
Theorem join_then_leave s sid d now1 now2 name r u :
  session s !! sid = Some name →
  d_room d = Some r → r ∈ CHAT_ROOMS →
  PyDict.get sid (activeUsers s) = Some u →
  let s1 := (step s (Join sid d now1)).1 in
  let s2 := (step s1 (Leave sid d now2)).1 in
  PyDict.get sid (activeUsers s2) =
    Some (mkUser (username u) (connectedAt u) None) ∧
  (room u = None → activeUsers s2 = activeUsers s) ∧
  SocketIO.members (sio s2) (Some r) =
    SocketIO.members (sio s) (Some r) ∖ {[sid]} ∧
  (step s1 (Leave sid d now2)).2 =
    [mkEmit "status" (Status (name +:+ " has left the room.") "leave" now2)
            (ToRoom r) (SocketIO.members (sio s) (Some r) ∖ {[sid]})].
Proof.
  intros Hname Hr Hin Hget. cbv zeta. unfold step.
  rewrite onJoin_eq, Hname, Hr, bool_decide_eq_true_2, Hget by done.
  rewrite onLeave_eq. cbn [fst snd session activeUsers sio].
  rewrite Hname, Hr, get_set_eq. cbn [fst snd activeUsers sio username connectedAt].
  rewrite deliver_room by (by apply CHAT_ROOMS_nonempty).
  rewrite set_set, members_leave, decide_True by done.
  rewrite members_enter, decide_True by done.
  assert (Hset : ({[sid]} ∪ SocketIO.members (sio s) (Some r)) ∖ {[sid]}
                 = SocketIO.members (sio s) (Some r) ∖ {[sid]}).
  { apply set_eq. intros x. rewrite !elem_of_difference, elem_of_union.
    split; [intros [[?|?] ?]; done | intros [? ?]; auto]. }
  rewrite Hset. split; [apply get_set_eq|]. split; [|done].
  intros Hnone. apply set_get_id. rewrite Hget. f_equal.
  destruct u; simpl in *; by subst.
Qed.

Lemma join_then_leave_witness :
  let s := (step lobby (Leave "b" (join_data "General") "10:35:00")).1 in
  let d := join_data "Running Club" in
  let s2 := (step (step s (Join "b" d "10:36:00")).1
                  (Leave "b" d "10:37:00")).1 in
  PyDict.get "b" (activeUsers s) =
    Some (mkUser "Guest10315678" "10:31:00" None) ∧
  activeUsers s2 = activeUsers s ∧
  SocketIO.members (sio s2) (Some "Running Club") = ∅.
Proof.
  cbv zeta. split; [reflexivity|].
  destruct (join_then_leave
              (step lobby (Leave "b" (join_data "General") "10:35:00")).1
              "b" (join_data "Running Club") "10:36:00" "10:37:00"
              "Guest10315678" "Running Club"
              (mkUser "Guest10315678" "10:31:00" None)
              ltac:(reflexivity) ltac:(reflexivity)
              ltac:(by apply (bool_decide_unpack _)) ltac:(reflexivity))
    as (_ & Hau & Hm & _).
  split; [exact (Hau eq_refl)|]. rewrite Hm. vm_compute. reflexivity.
Defined.

(** ** Presence under room events *)

(** X6. A Join, a Leave and a Message never change who is registered: the
    ids, their order, the display names and the connect times of
    [activeUsers] stay as they are, the sessions too, and no [activeUsers]
    event is sent. *)
Theorem room_events_keep_presence s e :
  match e with
  | Join _ _ _ | Leave _ _ _ | Message _ _ _ => True
  | _ => False
  end →
  (λ kv, (kv.1, username kv.2, connectedAt kv.2)) <$> activeUsers (step s e).1
    = (λ kv, (kv.1, username kv.2, connectedAt kv.2)) <$> activeUsers s ∧
  snapshot (activeUsers (step s e).1) = snapshot (activeUsers s) ∧
  session (step s e).1 = session s ∧
  Forall (λ em, event em ≠ "activeUsers") (step s e).2.
Proof.
  intros He.
  assert (Hview : ∀ au au' : list (string * UserData),
    (λ kv, (kv.1, username kv.2, connectedAt kv.2)) <$> au'
      = (λ kv, (kv.1, username kv.2, connectedAt kv.2)) <$> au →
    snapshot au' = snapshot au).
  { intros au au' H. unfold snapshot, PyDict.values.
    rewrite <- !list_fmap_compose.
    change (username ∘ snd) with
      ((λ t : string * string * string, t.1.2) ∘
       (λ kv : string * UserData, (kv.1, username kv.2, connectedAt kv.2))).
    rewrite !(list_fmap_compose
      (λ kv : string * UserData, (kv.1, username kv.2, connectedAt kv.2))).
    by rewrite H. }
  destruct e as [| |sid d now|sid d now|sid d now]; try done.
  - unfold step. rewrite onJoin_eq.
    destruct (session s !! sid) as [name|]; [|by repeat split].
    destruct (d_room d) as [r|]; [|by repeat split].
    destruct (bool_decide (r ∈ CHAT_ROOMS)); [|by repeat split].
    destruct (PyDict.get sid (activeUsers s)) as [u|] eqn:Hget;
      cbn [fst snd activeUsers session]; [|by repeat split].
    assert (Heq : (λ kv, (kv.1, username kv.2, connectedAt kv.2)) <$>
        PyDict.set sid (mkUser (username u) (connectedAt u) (Some r))
                   (activeUsers s)
      = (λ kv, (kv.1, username kv.2, connectedAt kv.2)) <$> activeUsers s)
      by (by apply (fmap_set_same _ _ _ u)).
    split; [exact Heq|]. split; [by apply Hview|]. split; [done|].
    by repeat constructor.
  - unfold step. rewrite onLeave_eq.
    destruct (session s !! sid) as [name|]; [|by repeat split].
    destruct (d_room d) as [r|]; [|by repeat split].
    cbn [fst snd activeUsers session].
    assert (Heq : (λ kv, (kv.1, username kv.2, connectedAt kv.2)) <$>
        match PyDict.get sid (activeUsers s) with
        | Some u => PyDict.set sid (mkUser (username u) (connectedAt u) None)
                               (activeUsers s)
        | None => activeUsers s
        end
      = (λ kv, (kv.1, username kv.2, connectedAt kv.2)) <$> activeUsers s).
    { destruct (PyDict.get sid (activeUsers s)) as [u|] eqn:Hget; [|done].
      by apply (fmap_set_same _ _ _ u). }
    split; [exact Heq|]. split; [by apply Hview|]. split; [done|].
    by repeat constructor.
  - rewrite step_message_state. split; [done|]. split; [done|].
    split; [done|]. simpl.
    destruct (decide (d_type d = Some "private")) as [Ht|Ht].
    + eapply Forall_impl; [by apply handleMessage_private_events|].
      intros em ->. done.
    + destruct (session s !! sid) as [name|] eqn:Hs;
        [|unfold handler; by rewrite handleMessage_no_session].
      destruct (decide (PyStr.strip (default "" (d_msg d)) = "")) as [Hm|Hm];
        [by rewrite handleMessage_blank|].
      unfold handler. rewrite (handleMessage_room _ _ _ _ name) by done.
      cbv zeta. destruct (bool_decide _); simpl; [|done].
      by repeat constructor.
Qed.

Lemma room_events_keep_presence_witness :
  let e := Leave "a" (join_data "Academics") "10:35:00" in
  snapshot (activeUsers (step lobby e).1) =
    ["Guest10301234"; "Guest10315678"] ∧
  Forall (λ em, event em ≠ "activeUsers") (step lobby e).2.
Proof.
  cbv zeta.
  destruct (room_events_keep_presence lobby
              (Leave "a" (join_data "Academics") "10:35:00") I)
    as (_ & Hsnap & _ & Hout).
  split; [|exact Hout]. rewrite Hsnap. reflexivity.
Defined.

(** ** Connect and Disconnect *)

Lemma members_open (sid : string) (r : option string)
    (rooms : gmap (option string) (gset string)) :
  SocketIO.members (SocketIO.open sid rooms) r =
  if decide (r = None ∨ r = Some sid)
  then {[sid]} ∪ SocketIO.members rooms r
  else SocketIO.members rooms r.
Proof.
  unfold SocketIO.open. rewrite members_enter.
  destruct (decide (Some sid = r)) as [<-|Hne].
  - rewrite members_enter, decide_False by done.
    by rewrite decide_True by (by right).
  - rewrite members_enter. destruct (decide (None = r)) as [<-|Hne'].
    + by rewrite decide_True by (by left).
    + rewrite decide_False; [done|]. intros [->| ->]; done.
Qed.

Lemma snapshot_app au1 au2 :
  snapshot (au1 ++ au2) = (snapshot au1 ++ snapshot au2)%list.
Proof. unfold snapshot, PyDict.values. by rewrite !fmap_app. Qed.

(** X7. A Connect for an id that is not registered adds its entry after all
    the others: the display name is the ['username'] of the HTTP session
    when there is one and the guest name otherwise, it is stored in the
    session of the connection, and the snapshot that is broadcast is the
    former snapshot followed by that name. *)
Theorem connect_appends s sid http_user guest now :
  PyDict.contains sid (activeUsers s) = false →
  let name := default guest http_user in
  let s' := (step s (Connect sid http_user guest now)).1 in
  activeUsers s' = (activeUsers s ++ [(sid, mkUser name now None)])%list ∧
  session s' !! sid = Some name ∧
  (λ em, (event em, data em, to em)) <$>
    (step s (Connect sid http_user guest now)).2 =
    [("activeUsers", Users (snapshot (activeUsers s) ++ [name]), Broadcast)].
Proof.
  intros Hc%contains_false. cbv zeta. rewrite step_connect. simpl.
  rewrite set_absent by done. split; [done|].
  split; [apply lookup_insert_eq|]. by rewrite snapshot_app.
Qed.

Lemma connect_appends_witness :
  let e := Connect "c" (Some "Guest10200042") "Guest10359999" "10:35:00" in
  PyDict.contains "c" (activeUsers lobby) = false ∧
  snapshot (activeUsers (step lobby e).1) =
    ["Guest10301234"; "Guest10315678"; "Guest10200042"] ∧
  (λ em, (event em, data em, to em)) <$> (step lobby e).2 =
    [("activeUsers",
      Users ["Guest10301234"; "Guest10315678"; "Guest10200042"], Broadcast)].
Proof.
  cbv zeta. split; [reflexivity|].
  destruct (connect_appends lobby "c" (Some "Guest10200042") "Guest10359999"
              "10:35:00" ltac:(reflexivity)) as (Hau & _ & Hout).
  split; [by rewrite Hau|]. rewrite Hout. reflexivity.
Defined.

(** X8. A Disconnect of a registered connection removes its entry and no
    other: the entries before and after it keep their order, the snapshot
    that is broadcast lists their names, the session of the connection is
    dropped and the connection is in no room of the transport any more. *)
Theorem disconnect_removes_entry s sid pre u post :
  NoDup (PyDict.keys (activeUsers s)) →
  activeUsers s = (pre ++ (sid, u) :: post)%list →
  let s' := (step s (Disconnect sid)).1 in
  activeUsers s' = (pre ++ post)%list ∧
  session s' !! sid = None ∧
  (∀ r, sid ∉ SocketIO.members (sio s') r) ∧
  (λ em, (event em, data em, to em)) <$> (step s (Disconnect sid)).2 =
    [("activeUsers", Users (snapshot pre ++ snapshot post), Broadcast)].
Proof.
  intros Hnd Hau. cbv zeta. rewrite step_disconnect.
  assert (Hc : PyDict.contains sid (activeUsers s) = true).
  { apply contains_true. rewrite Hau. unfold PyDict.keys.
    rewrite fmap_app, fmap_cons. apply elem_of_app. right. left. }
  assert (Hdel : PyDict.del sid (activeUsers s) = (pre ++ post)%list).
  { rewrite Hau in Hnd |- *. unfold PyDict.keys in Hnd.
    rewrite fmap_app, fmap_cons in Hnd.
    apply NoDup_app in Hnd as (_ & Hpre & [Hpost _]%NoDup_cons).
    unfold PyDict.del. rewrite filter_app, filter_cons_False by (simpl; auto).
    fold (PyDict.del sid pre). fold (PyDict.del sid post).
    rewrite !del_absent; [done| |].
    - by apply get_None_keys.
    - apply get_None_keys. intros Hin. apply (Hpre sid Hin). left. }
  rewrite Hc. cbv zeta. cbn [fst snd activeUsers session sio].
  rewrite Hdel, snapshot_app. split; [done|].
  split; [apply lookup_delete_eq|]. split; [|done].
  intros r. rewrite members_close.
  intros [_ Hn]%elem_of_difference. apply Hn. by apply elem_of_singleton.
Qed.

Lemma disconnect_removes_entry_witness :
  NoDup (PyDict.keys (activeUsers lobby)) ∧
  activeUsers (step lobby (Disconnect "a")).1 =
    [("b", mkUser "Guest10315678" "10:31:00" (Some "General"))] ∧
  (λ em, (event em, data em, to em)) <$> (step lobby (Disconnect "a")).2 =
    [("activeUsers", Users ["Guest10315678"], Broadcast)].
Proof.
  assert (Hnd : NoDup (PyDict.keys (activeUsers lobby)))
    by (by apply (bool_decide_unpack _)).
  split; [exact Hnd|].
  destruct (disconnect_removes_entry lobby "a" []
              (mkUser "Guest10301234" "10:30:00" (Some "Academics"))
              [("b", mkUser "Guest10315678" "10:31:00" (Some "General"))]
              Hnd ltac:(reflexivity)) as (Hau & _ & _ & Hout).
  split; [exact Hau|]. rewrite Hout. reflexivity.
Defined.

(** X9. A Connect for an id that is not registered followed by its
    Disconnect leaves [activeUsers] as it was before the two; the
    connection has no session and is in no room afterwards, the rooms keep
    their other members, and the second broadcast lists the names that
    were registered before the Connect. *)
Theorem connect_then_disconnect s sid http_user guest now :
  PyDict.contains sid (activeUsers s) = false →
  let s1 := (step s (Connect sid http_user guest now)).1 in
  let s2 := (step s1 (Disconnect sid)).1 in
  activeUsers s2 = activeUsers s ∧
  session s2 = delete sid (session s) ∧
  (∀ r, SocketIO.members (sio s2) r = SocketIO.members (sio s) r ∖ {[sid]}) ∧
  data <$> (step s1 (Disconnect sid)).2 = [Users (snapshot (activeUsers s))].
Proof.
  intros Hc%contains_false. cbv zeta. rewrite step_connect. cbv zeta.
  cbn [fst]. rewrite step_disconnect. cbn [activeUsers session sio].
  unfold PyDict.contains. rewrite get_set_eq. cbv zeta.
  cbn [fst snd activeUsers session sio]. rewrite del_set_absent by done.
  split; [done|]. split; [apply delete_insert_eq|]. split; [|done].
  intros r. rewrite members_close, members_open.
  case_decide; [|done]. apply set_eq. intros x.
  rewrite !elem_of_difference, elem_of_union.
  split; [intros [[?|?] ?]; done | intros [? ?]; auto].
Qed.

Lemma connect_then_disconnect_witness :
  let e := Connect "c" None "Guest10359999" "10:35:00" in
  let s2 := (step (step lobby e).1 (Disconnect "c")).1 in
  PyDict.contains "c" (activeUsers lobby) = false ∧
  activeUsers s2 = activeUsers lobby ∧
  data <$> (step (step lobby e).1 (Disconnect "c")).2 =
    [Users ["Guest10301234"; "Guest10315678"]].
Proof.
  cbv zeta. split; [reflexivity|].
  destruct (connect_then_disconnect lobby "c" None "Guest10359999" "10:35:00"
              ltac:(reflexivity)) as (Hau & _ & _ & Hout).
  split; [exact Hau|]. rewrite Hout. reflexivity.
Defined.

(** ** Messages *)

(** What a Message can send: nothing, one [message] event, or one
    [privateMessage] event for an entry with the target's name. *)
Lemma handleMessage_out_cases sid d now s :
  (handler (handleMessage sid d now) s).2 = [] ∨
  ∃ name, session s !! sid = Some name ∧
    PyStr.strip (default "" (d_msg d)) ≠ "" ∧
    ((d_type d ≠ Some "private" ∧
      default "General" (d_room d) ∈ CHAT_ROOMS ∧
      (handler (handleMessage sid d now) s).2 =
        [mkEmit "message"
                (RoomMsg (PyStr.strip (default "" (d_msg d))) name
                         (default "General" (d_room d)) now)
                (ToRoom (default "General" (d_room d)))
                (SocketIO.members (sio s)
                                  (Some (default "General" (d_room d))))]) ∨
     (d_type d = Some "private" ∧
      ∃ k u, (k, u) ∈ activeUsers s ∧ Some (username u) = d_target d ∧
        (handler (handleMessage sid d now) s).2 =
          [mkEmit "privateMessage"
                  (PrivateMsg (PyStr.strip (default "" (d_msg d))) name
                              (default "" (d_target d)) now)
                  (ToRoom k) (SocketIO.deliver (sio s) (ToRoom k))])).
Proof.
  destruct (session s !! sid) as [name|] eqn:Hs;
    [|left; unfold handler; by rewrite handleMessage_no_session].
  destruct (decide (PyStr.strip (default "" (d_msg d)) = "")) as [Hm|Hm];
    [left; by rewrite handleMessage_blank|].
  unfold handler. destruct (decide (d_type d = Some "private")) as [Ht|Ht].
  - rewrite (handleMessage_private _ _ _ _ name) by done.
    destruct (truthy (d_target d)); [|by left].
    set (b := λ u : UserData, bool_decide (Some (username u) = d_target d)).
    destruct (decide (Exists (λ kv, b kv.2 = true) (activeUsers s)))
      as [Hex|Hnex].
    + destruct (first_match_split b _ Hex)
        as (pre & k & u & post & Hau & Hpre & Hu).
      right. exists name. split; [done|]. split; [done|]. right.
      split; [done|]. exists k, u. split.
      { rewrite Hau. apply elem_of_app. right. left. }
      split; [by apply bool_decide_eq_true in Hu|].
      rewrite Hau.
      by rewrite (for_items_first_match b "privateMessage" _ pre k u post s).
    + left. rewrite (for_items_no_match b); [done|].
      apply Forall_forall. intros kv Hkv.
      destruct (b kv.2) eqn:E; [|done]. exfalso. apply Hnex.
      apply Exists_exists. by exists kv.
  - rewrite (handleMessage_room _ _ _ _ name) by done. cbv zeta.
    destruct (bool_decide (default "General" (d_room d) ∈ CHAT_ROOMS)) eqn:Hr;
      [|by left].
    right. exists name. split; [done|]. split; [done|]. left.
    split; [done|]. split; [by apply bool_decide_eq_true in Hr|done].
Qed.

(** X10. Every inbound event sends at most one outbound event, of a kind
    fixed by the inbound event: a Connect or a Disconnect a broadcast
    [activeUsers]; a Join or a Leave a [status] to the room it names; a
    Message a [message] to its room ('General' when it names none) or a
    [privateMessage] to the room of one connection. *)
Theorem at_most_one_event s e :
  (length (step s e).2 ≤ 1)%nat ∧ Forall (sends e) (step s e).2.
Proof.
  destruct e as [sid h g now|sid|sid d now|sid d now|sid d now].
  - rewrite step_connect. simpl. split; [lia|]. by repeat constructor.
  - rewrite step_disconnect.
    destruct (PyDict.contains sid (activeUsers s)); simpl.
    + split; [lia|]. by repeat constructor.
    + split; [lia|constructor].
  - unfold step. rewrite onJoin_eq.
    destruct (session s !! sid) as [name|]; [|simpl; split; [lia|constructor]].
    destruct (d_room d) as [r|] eqn:Hr; [|simpl; split; [lia|constructor]].
    destruct (bool_decide (r ∈ CHAT_ROOMS)); [|simpl; split; [lia|constructor]].
    destruct (PyDict.get sid (activeUsers s)); simpl;
      [|split; [lia|constructor]].
    split; [lia|]. constructor; [|constructor]. simpl. rewrite Hr. eauto.
  - unfold step. rewrite onLeave_eq.
    destruct (session s !! sid) as [name|]; [|simpl; split; [lia|constructor]].
    destruct (d_room d) as [r|] eqn:Hr; [|simpl; split; [lia|constructor]].
    simpl. split; [lia|]. constructor; [|constructor]. simpl. rewrite Hr. eauto.
  - unfold step.
    destruct (handleMessage_out_cases sid d now s)
      as [->|(name & _ & _ & [(_ & _ & ->)|(_ & k & u & _ & _ & ->)])]; simpl.
    + split; [lia|constructor].
    + split; [lia|]. constructor; [|constructor]. by left.
    + split; [lia|]. constructor; [|constructor]. right. eauto.
Qed.

(** *** The text of a message *)

Lemma lstrip_head s :
  PyStr.lstrip s = "" ∨
  ∃ c t, PyStr.lstrip s = String c t ∧ PyStr.is_space c = false.
Proof.
  induction s as [|c s IH]; simpl; [by left|].
  destruct (PyStr.is_space c) eqn:Hc; [done|]. right. by exists c, s.
Qed.

Lemma lstrip_suffix s : ∃ p, s = p +:+ PyStr.lstrip s.
Proof.
  induction s as [|c s [p IH]]; simpl; [by exists ""|].
  destruct (PyStr.is_space c).
  - exists (String c p). change (String c p +:+ PyStr.lstrip s)
      with (String c (p +:+ PyStr.lstrip s)). by f_equal.
  - by exists "".
Qed.

Lemma last_char_cons c s :
  last_char (String c s) =
  match last_char s with Some x => Some x | None => Some c end.
Proof.
  revert c. induction s as [|a s IH]; intros c; [done|].
  change (last_char (String c (String a s))) with (last_char (String a s)).
  rewrite (IH a). by destruct (last_char s).
Qed.

Lemma last_char_app p s : s ≠ "" → last_char (p +:+ s) = last_char s.
Proof.
  intros Hs. induction p as [|c p IH]; [done|].
  change (String c p +:+ s) with (String c (p +:+ s)).
  rewrite last_char_cons, IH. destruct s as [|a s]; [done|].
  rewrite last_char_cons. by destruct (last_char s).
Qed.

Lemma last_char_rev s : last_char (PyStr.rev s) = first_char s.
Proof.
  destruct s as [|c s]; [done|]. simpl. by rewrite last_char_app.
Qed.

Lemma first_char_app a b :
  first_char (a +:+ b) =
  match first_char a with Some c => Some c | None => first_char b end.
Proof. by destruct a. Qed.

Lemma first_char_rev s : first_char (PyStr.rev s) = last_char s.
Proof.
  induction s as [|c s IH]; [done|].
  simpl PyStr.rev. rewrite first_char_app, IH, last_char_cons.
  by destruct (last_char s).
Qed.

Lemma strip_trimmed s :
  PyStr.strip s ≠ "" →
  ∃ c c', first_char (PyStr.strip s) = Some c ∧ PyStr.is_space c = false ∧
          last_char (PyStr.strip s) = Some c' ∧ PyStr.is_space c' = false.
Proof.
  unfold PyStr.strip, PyStr.rstrip.
  set (t := PyStr.lstrip s). set (u := PyStr.lstrip (PyStr.rev t)).
  intros Hne. rewrite first_char_rev, last_char_rev.
  destruct (lstrip_head (PyStr.rev t)) as [Hu|(c' & u' & Hu & Hc')];
    fold u in Hu; [by rewrite Hu in Hne|].
  destruct (lstrip_suffix (PyStr.rev t)) as [p Hp]. fold u in Hp.
  assert (Hlast : last_char u = first_char t).
  { rewrite <- last_char_rev, Hp. symmetry. apply last_char_app.
    by rewrite Hu. }
  destruct (lstrip_head s) as [Ht|(c & t' & Ht & Hc)]; fold t in Ht.
  { exfalso. subst u. rewrite Ht in Hu. discriminate Hu. }
  exists c, c'. rewrite Hlast, Ht. split; [done|]. split; [done|].
  by rewrite Hu.
Qed.

(** X11. The text carried by a [message] or a [privateMessage] event is the
    text of the inbound Message with the white space at both ends removed;
    it is never empty and neither its first nor its last character is
    white space. *)
Theorem message_text_is_trimmed s sid d now :
  Forall (λ em, ∃ c c',
            payload_text (data em) = Some (PyStr.strip (default "" (d_msg d))) ∧
            first_char (PyStr.strip (default "" (d_msg d))) = Some c ∧
            PyStr.is_space c = false ∧
            last_char (PyStr.strip (default "" (d_msg d))) = Some c' ∧
            PyStr.is_space c' = false)
         (step s (Message sid d now)).2.
Proof.
  unfold step.
  destruct (handleMessage_out_cases sid d now s)
    as [->|(name & _ & Hm & Hcases)]; [constructor|].
  destruct (strip_trimmed _ Hm) as (c & c' & Hc).
  destruct Hcases as [(_ & _ & ->)|(_ & k & u & _ & _ & ->)];
    (constructor; [|constructor]); exists c, c'; by split.
Qed.

(** X12. A private Message whose target is missing, empty or the display
    name of no entry is dropped: nothing is sent, to the sender neither,
    and the state is as before. *)
Theorem private_unknown_target_dropped s sid d now :
  d_type d = Some "private" →
  match d_target d with
  | Some t => t = "" ∨ t ∉ snapshot (activeUsers s)
  | None => True
  end →
  step s (Message sid d now) = (s, []).
Proof.
  intros Ht Htarget. unfold step.
  destruct (session s !! sid) as [name|] eqn:Hs;
    [|unfold handler; by rewrite handleMessage_no_session].
  destruct (decide (PyStr.strip (default "" (d_msg d)) = "")) as [Hm|Hm];
    [by rewrite handleMessage_blank|].
  unfold handler. rewrite (handleMessage_private _ _ _ _ name) by done.
  destruct (d_target d) as [t|] eqn:Hd; [|done]. unfold truthy.
  destruct Htarget as [->|Hnin]; [done|].
  destruct (bool_decide (t = "")); [done|]. simpl.
  rewrite (for_items_no_match
             (λ u, bool_decide (Some (username u) = Some t))); [done|].
  apply Forall_forall. intros [k u] Hin. simpl.
  apply bool_decide_eq_false. intros [= <-]. apply Hnin.
  unfold snapshot, PyDict.values. apply list_elem_of_fmap.
  exists u. split; [done|]. apply list_elem_of_fmap. by exists (k, u).
Qed.

Lemma private_unknown_target_dropped_witness :
  let d := mkData None (Some "private") (Some "psst") (Some "Nobody") in
  ("Nobody" ∉ snapshot (activeUsers lobby)) ∧
  step lobby (Message "a" d "10:35:00") = (lobby, []).
Proof.
  cbv zeta.
  assert (Hnin : "Nobody" ∉ snapshot (activeUsers lobby))
    by (by apply (bool_decide_unpack _)).
  split; [exact Hnin|].
  apply (private_unknown_target_dropped lobby "a"); [reflexivity|].
  right. exact Hnin.
Defined.

(** X13. A private Message does not look at its ['room']: with a room
    outside [CHAT_ROOMS], or without one, it has the same effect as with
    any other. *)
Theorem private_ignores_room s sid d now r' :
  d_type d = Some "private" →
  step s (Message sid (mkData r' (d_type d) (d_msg d) (d_target d)) now) =
  step s (Message sid d now).
Proof.
  intros Ht. unfold step, handler.
  destruct (session s !! sid) as [name|] eqn:Hs;
    [|by rewrite !handleMessage_no_session].
  destruct (decide (PyStr.strip (default "" (d_msg d)) = "")) as [Hm|Hm].
  - pose proof (handleMessage_blank sid d now s Hm) as H1.
    pose proof (handleMessage_blank sid
                  (mkData r' (d_type d) (d_msg d) (d_target d)) now s Hm) as H2.
    unfold handler in H1, H2. by rewrite H1, H2.
  - by rewrite !(handleMessage_private _ _ _ _ name).
Qed.

Lemma private_ignores_room_witness :
  let d := mkData None (Some "private") (Some "psst") (Some "Guest10315678") in
  let d' := mkData (Some "Chess Club") (Some "private") (Some "psst")
                   (Some "Guest10315678") in
  step lobby (Message "a" d' "10:35:00") =
    (lobby, [mkEmit "privateMessage"
                    (PrivateMsg "psst" "Guest10301234" "Guest10315678"
                                "10:35:00")
                    (ToRoom "b") {[ "b" ]}]).
Proof.
  cbv zeta.
  etrans; [exact (private_ignores_room lobby "a"
             (mkData None (Some "private") (Some "psst")
                     (Some "Guest10315678"))
             "10:35:00" (Some "Chess Club") eq_refl)|].
  vm_compute. reflexivity.
Defined.

(** ** What holds in every state the server reaches *)

Lemma names_match_step s e :
  NoDup (PyDict.keys (activeUsers s)) →
  names_match s → names_match (step s e).1.
Proof.
  unfold names_match. intros Hnd Hs.
  destruct e as [sid h g now|sid|sid d now|sid d now|sid d now].
  - rewrite step_connect. simpl.
    intros k u [[-> ->]|[Hne Hin]]%elem_set_nodup; [| |done].
    + by rewrite lookup_insert_eq.
    + rewrite lookup_insert_ne by done. auto.
  - rewrite step_disconnect.
    destruct (PyDict.contains sid (activeUsers s)) eqn:Hc; simpl.
    + intros k u [Hne Hin]%elem_del. rewrite lookup_delete_ne by done. auto.
    + intros k u Hin. rewrite lookup_delete_ne; [auto|].
      intros ->. by eapply elem_key_ne; [exact Hin|by apply contains_false|].
  - unfold step. rewrite onJoin_eq.
    destruct (session s !! sid) as [name|]; [|done].
    destruct (d_room d) as [r|]; [|done].
    destruct (bool_decide (r ∈ CHAT_ROOMS)); [|done].
    destruct (PyDict.get sid (activeUsers s)) as [u0|] eqn:Hget; simpl; [|done].
    intros k u [[-> ->]|[Hne Hin]]%elem_set_nodup; [| |done]; [|auto].
    simpl. by apply Hs, get_Some_elem.
  - unfold step. rewrite onLeave_eq.
    destruct (session s !! sid) as [name|]; [|done].
    destruct (d_room d) as [r|]; [|done]. simpl.
    destruct (PyDict.get sid (activeUsers s)) as [u0|] eqn:Hget; [|done].
    intros k u [[-> ->]|[Hne Hin]]%elem_set_nodup; [| |done]; [|auto].
    simpl. by apply Hs, get_Some_elem.
  - by rewrite step_message_state.
Qed.

Lemma names_match_reachable evs :
  consistent (run init evs).1 ∧ names_match (run init evs).1.
Proof.
  apply (run_invariant (λ s, consistent s ∧ names_match s)).
  - intros s e [Hc Hn]. split; [by apply consistent_step|].
    apply names_match_step; [apply Hc|done].
  - split; [apply consistent_init|]. intros k u H. by apply elem_of_nil in H.
Qed.

Lemma rooms_scoped_step s e : rooms_scoped s → rooms_scoped (step s e).1.
Proof.
  unfold rooms_scoped. intros Hs.
  destruct e as [sid h g now|sid|sid d now|sid d now|sid d now].
  - rewrite step_connect. simpl. intros k r. rewrite members_open.
    case_decide as Hr; [|auto]. destruct Hr as [Hr|[= ->]]; [done|].
    intros [->%elem_of_singleton|Hk]%elem_of_union; [by right|auto].
  - assert (Hclose : ∀ k r,
      k ∈ SocketIO.members (SocketIO.close sid (sio s)) (Some r) →
      r ∈ CHAT_ROOMS ∨ r = k).
    { intros k r. rewrite members_close. intros [Hk _]%elem_of_difference. auto. }
    rewrite step_disconnect.
    destruct (PyDict.contains sid (activeUsers s)); exact Hclose.
  - unfold step. rewrite onJoin_eq.
    destruct (session s !! sid) as [name|]; [|done].
    destruct (d_room d) as [r0|]; [|done].
    destruct (bool_decide (r0 ∈ CHAT_ROOMS)) eqn:Hr0; [|done].
    apply bool_decide_eq_true in Hr0.
    assert (Henter : ∀ k r,
      k ∈ SocketIO.members (SocketIO.enter sid (Some r0) (sio s)) (Some r) →
      r ∈ CHAT_ROOMS ∨ r = k).
    { intros k r. rewrite members_enter. case_decide as Heq; [|auto].
      injection Heq as <-. by left. }
    destruct (PyDict.get sid (activeUsers s)); exact Henter.
  - unfold step. rewrite onLeave_eq.
    destruct (session s !! sid) as [name|]; [|done].
    destruct (d_room d) as [r0|]; [|done]. simpl.
    intros k r. rewrite members_leave. case_decide as Heq; [|by apply Hs].
    injection Heq as <-. intros [Hk _]%elem_of_difference. by apply Hs.
  - by rewrite step_message_state.
Qed.

Lemma rooms_scoped_reachable evs : rooms_scoped (run init evs).1.
Proof.
  apply run_invariant; [apply rooms_scoped_step|].
  intros k r. unfold SocketIO.members. simpl. rewrite lookup_empty. simpl.
  by intros ?%not_elem_of_empty.
Qed.

(** X14. After any events from the start, whoever [activeUsers] records in a
    room is a member of that room of the transport, so it gets the events
    sent to the room; and no id is a key of [activeUsers] twice. *)
Theorem recorded_room_is_joined evs k u r :
  (k, u) ∈ activeUsers (run init evs).1 →
  room u = Some r →
  k ∈ SocketIO.members (sio (run init evs).1) (Some r) ∧
  NoDup (PyDict.keys (activeUsers (run init evs).1)).
Proof.
  intros Hin Hr. destruct (consistent_reachable evs) as [Hnd Hs].
  split; [by apply (Hs k u)|done].
Qed.

Lemma recorded_room_is_joined_witness :
  let evs := [Connect "a" None "Guest10301234" "10:30:00";
              Join "a" (join_data "General") "10:32:00";
              Leave "a" (join_data "Academics") "10:33:00";
              Join "a" (join_data "Anime Club") "10:34:00"] in
  let u := mkUser "Guest10301234" "10:30:00" (Some "Anime Club") in
  ("a", u) ∈ activeUsers (run init evs).1 ∧
  "a" ∈ SocketIO.members (sio (run init evs).1) (Some "Anime Club").
Proof.
  cbv zeta.
  assert (Hin : ("a", mkUser "Guest10301234" "10:30:00" (Some "Anime Club"))
                ∈ activeUsers (run init
                    [Connect "a" None "Guest10301234" "10:30:00";
                     Join "a" (join_data "General") "10:32:00";
                     Leave "a" (join_data "Academics") "10:33:00";
                     Join "a" (join_data "Anime Club") "10:34:00"]).1).
  { vm_compute. left. }
  split; [exact Hin|].
  exact (proj1 (recorded_room_is_joined _ "a" _ "Anime Club" Hin eq_refl)).
Defined.

(** X15. After any events from the start, a connection is in no room of the
    transport except rooms of [CHAT_ROOMS] and the room named by its own
    sid: no Join can put it in the room of another connection. *)
Theorem transport_rooms_scoped evs k r :
  k ∈ SocketIO.members (sio (run init evs).1) (Some r) →
  r ∈ CHAT_ROOMS ∨ r = k.
Proof. apply rooms_scoped_reachable. Qed.

Lemma transport_rooms_scoped_witness :
  "a" ∈ SocketIO.members (sio lobby) (Some "General") ∧
  ("General" ∈ CHAT_ROOMS ∨ "General" = "a").
Proof.
  assert (Hin : "a" ∈ SocketIO.members (sio lobby) (Some "General"))
    by (by vm_compute).
  split; [exact Hin|].
  exact (transport_rooms_scoped
           [Connect "a" None "Guest10301234" "10:30:00";
            Connect "b" None "Guest10315678" "10:31:00";
            Join "a" (join_data "General") "10:32:00";
            Join "a" (join_data "Academics") "10:33:00";
            Join "b" (join_data "General") "10:34:00"] "a" "General" Hin).
Defined.

(** X16. After any events from the start, a [privateMessage] is addressed
    to the room of an entry whose display name is the target, and, unless
    the sid of that entry is empty or itself a name of [CHAT_ROOMS], no
    other connection gets it. *)
Theorem private_message_not_leaked evs sid d now :
  let s := (run init evs).1 in
  Forall (λ em, event em = "privateMessage" →
            ∃ k u, (k, u) ∈ activeUsers s ∧
                   Some (username u) = d_target d ∧
                   to em = ToRoom k ∧
                   (k ≠ "" → k ∉ CHAT_ROOMS → rcpt em ⊆ {[k]}))
         (step s (Message sid d now)).2.
Proof.
  cbv zeta. unfold step.
  destruct (handleMessage_out_cases sid d now (run init evs).1)
    as [->|(name & _ & _ & [(_ & _ & ->)|(_ & k & u & Hin & Hu & ->)])].
  - constructor.
  - constructor; [|constructor]. simpl. discriminate.
  - constructor; [|constructor]. cbn [event to rcpt]. intros _. exists k, u.
    split; [done|]. split; [done|]. split; [done|].
    intros Hne Hk x Hx. rewrite deliver_room in Hx by done.
    apply elem_of_singleton.
    destruct (rooms_scoped_reachable evs x k Hx) as [?|?]; [done|by subst].
Qed.

(** X17. After any events from the start, what a registered connection
    sends carries its display name of [activeUsers]: the sender of its
    messages and the name in its join and leave notices are the name the
    presence list shows for it. *)
Theorem sender_is_display_name evs sid u d now :
  let s := (run init evs).1 in
  PyDict.get sid (activeUsers s) = Some u →
  Forall (λ em, payload_sender (data em) = Some (username u))
         (step s (Message sid d now)).2 ∧
  Forall (λ em, ∃ ts, data em =
            Status (username u +:+ " has joined the room.") "join" ts)
         (step s (Join sid d now)).2 ∧
  Forall (λ em, ∃ ts, data em =
            Status (username u +:+ " has left the room.") "leave" ts)
         (step s (Leave sid d now)).2.
Proof.
  cbv zeta. intros Hget.
  destruct (names_match_reachable evs) as [_ Hn].
  pose proof (Hn sid u (get_Some_elem _ _ _ Hget)) as Hs.
  split; [|split]; unfold step.
  - destruct (handleMessage_out_cases sid d now (run init evs).1)
      as [->|(name & Hname & _ & [(_ & _ & ->)|(_ & k & u' & _ & _ & ->)])];
      [constructor| |]; (constructor; [|constructor]); simpl; congruence.
  - rewrite onJoin_eq, Hs. destruct (d_room d) as [r|]; [|constructor].
    destruct (bool_decide (r ∈ CHAT_ROOMS)); [|constructor].
    rewrite Hget. simpl. constructor; [|constructor]. simpl. eauto.
  - rewrite onLeave_eq, Hs. destruct (d_room d) as [r|]; [|constructor].
    simpl. constructor; [|constructor]. simpl. eauto.
Qed.

Lemma sender_is_display_name_witness :
  let d := mkData (Some "General") None (Some "hi") None in
  PyDict.get "b" (activeUsers lobby) =
    Some (mkUser "Guest10315678" "10:31:00" (Some "General")) ∧
  Forall (λ em, payload_sender (data em) = Some "Guest10315678")
         (step lobby (Message "b" d "10:35:00")).2.
Proof.
  cbv zeta. split; [reflexivity|].
  exact (proj1 (sender_is_display_name
           [Connect "a" None "Guest10301234" "10:30:00";
            Connect "b" None "Guest10315678" "10:31:00";
            Join "a" (join_data "General") "10:32:00";
            Join "a" (join_data "Academics") "10:33:00";
            Join "b" (join_data "General") "10:34:00"] "b"
           (mkUser "Guest10315678" "10:31:00" (Some "General"))
           (mkData (Some "General") None (Some "hi") None) "10:35:00"
           eq_refl)).
Defined.

(** ** Guest names *)

Lemma digit_code n : nat_of_ascii (digit n) = 48 + n `mod` 10.
Proof.
  unfold digit. apply nat_ascii_embedding.
  pose proof (Nat.mod_upper_bound n 10 ltac:(lia)). lia.
Qed.

Lemma is_digit_digit n : is_digit (digit n) = true.
Proof.
  unfold is_digit. rewrite digit_code.
  pose proof (Nat.mod_upper_bound n 10 ltac:(lia)).
  apply andb_true_intro. split; apply Nat.leb_le; lia.
Qed.

Lemma two_digits_inj a b :
  a < 100 → b < 100 → two_digits a = two_digits b → a = b.
Proof.
  intros Ha Hb [= H1 H2].
  change (Nat.divmod a 9 0 9).1 with (a `div` 10) in H1.
  change (Nat.divmod b 9 0 9).1 with (b `div` 10) in H1.
  apply (f_equal nat_of_ascii) in H1, H2. rewrite !digit_code in H1, H2.
  assert (Hq : a `div` 10 = b `div` 10).
  { pose proof (Nat.Div0.div_lt_upper_bound a 10 10 ltac:(lia)).
    pose proof (Nat.Div0.div_lt_upper_bound b 10 10 ltac:(lia)).
    rewrite (Nat.mod_small (a `div` 10) 10),
      (Nat.mod_small (b `div` 10) 10) in H1 by lia. lia. }
  rewrite (Nat.div_mod_eq a 10), (Nat.div_mod_eq b 10). lia.
Qed.

Lemma string_length_app a b :
  String.length (a +:+ b) = String.length a + String.length b.
Proof. induction a as [|c a IH]; simpl; [done|]. by rewrite IH. Qed.

Lemma all_digits_app a b :
  all_digits (a +:+ b) = all_digits a && all_digits b.
Proof.
  induction a as [|c a IH]; simpl; [done|]. by rewrite IH, andb_assoc.
Qed.

Lemma pretty_four_digits (rnd : Z) :
  (1000 ≤ rnd ≤ 9999)%Z →
  String.length (pretty rnd) = 4 ∧ all_digits (pretty rnd) = true.
Proof.
  intros Hr.
  assert (Hall : forallb (λ i, let n := (1000 + Z.of_nat i)%Z in
                               (String.length (pretty n) =? 4)%nat
                               && all_digits (pretty n))
                         (seq 0 (90 * 100)) = true) by (vm_compute; reflexivity).
  rewrite forallb_forall in Hall.
  specialize (Hall (Z.to_nat (rnd - 1000)) ltac:(apply in_seq; lia)).
  cbv zeta in Hall. replace (1000 + Z.of_nat (Z.to_nat (rnd - 1000)))%Z
    with rnd in Hall by lia.
  apply andb_prop in Hall as [Hlen Hdig]. by apply Nat.eqb_eq in Hlen.
Qed.

(** X18. A guest name is the word Guest followed by eight decimal digits:
    the hour and the minute of the clock on two digits each, and the four
    digits of the number drawn between 1000 and 9999.  It is never empty. *)
Theorem guest_name_format (hour minute : nat) (rnd : Z) :
  hour < 24 → minute < 60 → (1000 ≤ rnd ≤ 9999)%Z →
  ∃ ds, generateGuestUsername hour minute rnd = "Guest" +:+ ds ∧
        ds = two_digits hour +:+ two_digits minute +:+ pretty rnd ∧
        String.length ds = 8 ∧ all_digits ds = true.
Proof.
  intros _ _ Hr. destruct (pretty_four_digits rnd Hr) as [Hlen Hdig].
  eexists. split; [reflexivity|]. split; [reflexivity|].
  rewrite !string_length_app, !all_digits_app, Hlen, Hdig. unfold two_digits.
  cbn [String.length all_digits]. by rewrite !is_digit_digit.
Qed.

Lemma guest_name_format_witness :
  (10 < 24)%nat ∧ (30 < 60)%nat ∧ (1000 ≤ 1234 ≤ 9999)%Z ∧
  generateGuestUsername 10 30 1234 = "Guest10301234".
Proof.
  split; [lia|]. split; [lia|]. split; [lia|].
  destruct (guest_name_format 10 30 1234 ltac:(lia) ltac:(lia) ltac:(lia))
    as (ds & -> & -> & _).
  vm_compute. reflexivity.
Defined.

(** X19. Two guest names are equal only when they were made in the same
    minute of the day with the same number drawn: apart from that, the
    generator gives different connections different names. *)
Theorem guest_name_inj (h1 m1 : nat) (r1 : Z) (h2 m2 : nat) (r2 : Z) :
  h1 < 24 → m1 < 60 → h2 < 24 → m2 < 60 →
  generateGuestUsername h1 m1 r1 = generateGuestUsername h2 m2 r2 →
  h1 = h2 ∧ m1 = m2 ∧ r1 = r2.
Proof.
  intros Hh1 Hm1 Hh2 Hm2 Heq. unfold generateGuestUsername in Heq.
  cbn in Heq. injection Heq as Ha Hb Hc Hd Hr.
  split; [|split].
  - apply two_digits_inj; [lia|lia|]. unfold two_digits. cbn. congruence.
  - apply two_digits_inj; [lia|lia|]. unfold two_digits. cbn. congruence.
  - by apply (inj pretty).
Qed.

Lemma guest_name_inj_witness :
  (10 < 24)%nat ∧ (30 < 60)%nat ∧
  generateGuestUsername 10 30 1234 = "Guest10301234" ∧
  (10 = 10 ∧ 30 = 30 ∧ 1234%Z = 1234%Z).
Proof.
  split; [lia|]. split; [lia|]. split; [by vm_compute|].
  apply (guest_name_inj 10 30 1234 10 30 1234); [lia..|reflexivity].
Defined.

(** ** Changing rooms *)

(** X21. A Join by a connection that is recorded in another room replaces
    the recorded room and sends the join notice of the new room only: no
    event goes to the former room, and the connection stays a member of it
    in the transport, so that it is in both rooms afterwards. *)
Theorem join_keeps_former_room s sid d now name r1 r2 u :
  session s !! sid = Some name →
  PyDict.get sid (activeUsers s) = Some u →
  room u = Some r1 →
  sid ∈ SocketIO.members (sio s) (Some r1) →
  d_room d = Some r2 → r2 ∈ CHAT_ROOMS → r1 ≠ r2 →
  let s' := (step s (Join sid d now)).1 in
  room <$> PyDict.get sid (activeUsers s') = Some (Some r2) ∧
  sid ∈ SocketIO.members (sio s') (Some r1) ∧
  sid ∈ SocketIO.members (sio s') (Some r2) ∧
  SocketIO.members (sio s') (Some r1) = SocketIO.members (sio s) (Some r1) ∧
  Forall (λ em, event em = "status" ∧ to em = ToRoom r2 ∧
                ∃ ts, data em =
                  Status (name +:+ " has joined the room.") "join" ts)
         (step s (Join sid d now)).2.
Proof.
  intros Hname Hget Hroom Hin Hr Hvalid Hne. cbv zeta. unfold step.
  rewrite onJoin_eq, Hname, Hr, bool_decide_eq_true_2, Hget by done.
  cbn [fst snd activeUsers sio]. rewrite get_set_eq.
  rewrite !members_enter, decide_False, decide_True by congruence.
  split; [done|]. split; [done|].
  split; [apply elem_of_union_l; by apply elem_of_singleton|].
  split; [done|]. constructor; [|constructor]. simpl. eauto.
Qed.

Lemma join_keeps_former_room_witness :
  let e := Join "b" (join_data "Anime Club") "10:35:00" in
  PyDict.get "b" (activeUsers lobby) =
    Some (mkUser "Guest10315678" "10:31:00" (Some "General")) ∧
  "b" ∈ SocketIO.members (sio lobby) (Some "General") ∧
  room <$> PyDict.get "b" (activeUsers (step lobby e).1)
    = Some (Some "Anime Club") ∧
  "b" ∈ SocketIO.members (sio (step lobby e).1) (Some "General") ∧
  "b" ∈ SocketIO.members (sio (step lobby e).1) (Some "Anime Club").
Proof.
  cbv zeta. split; [reflexivity|].
  assert (Hin : "b" ∈ SocketIO.members (sio lobby) (Some "General"))
    by (by vm_compute).
  split; [exact Hin|].
  destruct (join_keeps_former_room lobby "b" (join_data "Anime Club")
              "10:35:00" "Guest10315678" "General" "Anime Club"
              (mkUser "Guest10315678" "10:31:00" (Some "General"))
              ltac:(reflexivity) ltac:(reflexivity) ltac:(reflexivity) Hin
              ltac:(reflexivity) ltac:(by apply (bool_decide_unpack _))
              ltac:(discriminate)) as (H1 & H2 & H3 & _).
  split; [exact H1|]. split; [exact H2|exact H3].
Defined.

(** ** C6: private messages *)






